(** * imgpkg describe: the description tree and its text rendering

    A shallow embedding of [pkg/imgpkg/cmd/describe.go]: the validation of
    the [--output-type] flag, the [Run] entry point of the command and the
    text printer [bundleTextPrinter] with its recursive [printerRec].

    Go strings are byte strings and are modelled by [string]; a Go [error]
    value is either [nil] ([None]) or some error ([Some e]); a Go [panic]
    is the [Panicked] outcome of a computation. *)

From Stdlib Require Import ZArith Lia Ascii.
From stdpp Require Import base strings list gmap.

Local Open Scope Z_scope.
Local Open Scope nat_scope.

(** ** Strings *)

(** The line feed, written ["\n"] in the Go source. *)
Definition LF : ascii := Ascii.ascii_of_nat 10.
Definition nl : string := String LF "".

(** One level of indentation of goui's indenting UI. *)
Definition indent_unit : string := "  ".

(** ** Errors *)

(** A non-nil Go [error]; [Error] is the message its [Error()] method
    returns. *)
Record error := errorString { Error : string }.

(** [fmt.Errorf] with a format that has no verbs. *)
Definition Errorf (format : string) : error := errorString format.

(** ** The description tree ([api.BundleDescription]) *)

(** Modelled from the spec: the declarations of [api.ImageInfo],
    [api.BundleDescription] and [api.Content] live in package [api]; only
    the fields the command reads ([Image], [Origin], [Content.Bundles],
    [Content.Images]) are visible in the source. The spec's ImageNode has a
    reference, an origin and a string-to-string annotation map; its
    BundleNode has a reference, an origin and a content made of an ordered
    sequence of bundles and an ordered sequence of images. *)
Module ImageInfo.
Record t := mk {
  Image : string;
  Origin : string;
  Annotations : gmap string string
}.
End ImageInfo.

Inductive BundleDescription := mkBundleDescription {
  Image : string;
  Origin : string;
  Content : BundleContent
}
with BundleContent := mkContent {
  Bundles : list BundleDescription;
  Images : list ImageInfo.t
}.

(** ** Computations with a state and panics *)

Inductive Outcome (A : Type) :=
| Returned (a : A)
| Panicked (msg : string).
Arguments Returned {A} a.
Arguments Panicked {A} msg.

Definition M (St A : Type) : Type := St -> Outcome A * St.

Definition ret {St A} (a : A) : M St A := fun st => (Returned a, st).

Definition bind {St A B} (m : M St A) (k : A -> M St B) : M St B :=
  fun st =>
    match m st with
    | (Returned a, st') => k a st'
    | (Panicked msg, st') => (Panicked msg, st')
    end.

Definition panic {St A} (msg : string) : M St A := fun st => (Panicked msg, st).

Notation "x <- m ;; k" := (bind m (fun x => k))
  (at level 100, m at next level, right associativity).
Notation "m ;; k" := (bind m (fun _ => k))
  (at level 100, right associativity).

(** A Go [for _, x := range xs { body }] whose body neither breaks nor
    returns. *)
Definition for_range {St A} (body : A -> M St unit) : list A -> M St unit :=
  fix loop (xs : list A) : M St unit :=
    match xs with
    | [] => ret tt
    | x :: rest => body x ;; loop rest
    end.

(** ** The user interface ([goui.UI]) *)

(** What the terminal has received: the texts handed to the terminal UI's
    [BeginLinef], oldest first. *)
Definition UIState : Type := list string.

(** The text on the terminal. *)
Definition ui_text (st : UIState) : string := fold_right String.append "" st.

(** Modelled from the spec: [goui.UI] and [goui.NewIndentingUI] belong to
    the go-cli-ui library. The spec describes the indenting UI as a
    decorator that accumulates an indent prefix of one fixed unit (two
    spaces) per level on top of its parent; [ConfUI] is the terminal UI the
    command is constructed with. [BeginLinef] takes the text already
    formatted by [fmt.Sprintf]. *)
Inductive UI :=
| ConfUI
| indentingUI (parent : UI).

Definition NewIndentingUI (parent : UI) : UI := indentingUI parent.

Fixpoint UI_BeginLinef (ui : UI) (text : string) : M UIState unit :=
  match ui with
  | ConfUI => fun st => (Returned tt, st ++ [text])
  | indentingUI parent => UI_BeginLinef parent (indent_unit +:+ text)
  end.

(** Modelled from the spec: [util.NewUIPrefixedWriter] is in package
    [util]; the printer uses it with the empty prefix for the header and
    the separator line, which reach the UI as they are. *)
Record UIPrefixWriter := mkUIPrefixWriter { prefix : string; pw_ui : UI }.

Definition NewUIPrefixedWriter (prefix : string) (ui : UI) : UIPrefixWriter :=
  mkUIPrefixWriter prefix ui.

(** The method both loggers of the printer share. *)
Class LineLogger (L : Type) := BeginLinef : L -> string -> M UIState unit.

#[global] Instance UI_logger : LineLogger UI := UI_BeginLinef.
#[global] Instance UIPrefixWriter_logger : LineLogger UIPrefixWriter :=
  fun w text => UI_BeginLinef (pw_ui w) (prefix w +:+ text).

(** ** External collaborators *)

(** Package [regname] (go-containerregistry): [ParseReference] returns a
    [Reference] or an error ([None]); [Identifier] is the method the
    printer calls on the parsed reference. The library is taken as an
    interface. *)
Class regname := {
  Reference : Type;
  ParseReference : string -> option Reference;
  Identifier : Reference -> string
}.

(** [util.NewUILevelLogger(util.LogWarn, d.ui)]: the logger handed to the
    resolver. [LogWarn] is the one level the command names. *)
Inductive LogLevel := LogWarn.
Record UILevelLogger := mkUILevelLogger { level : LogLevel; ll_ui : UI }.
Definition NewUILevelLogger (l : LogLevel) (ui : UI) : UILevelLogger :=
  mkUILevelLogger l ui.

(** [api.DescribeOpts]. *)
Module DescribeOpts.
Record t := mk { Logger : UILevelLogger; Concurrency : Z }.
End DescribeOpts.

(** Package [api] and the registry flags of package [cmd]: the resolver
    [DescribeBundle] answers with a description tree or with an error.
    What the resolver may log on its own through [opts.Logger] is decided
    in package [api]; the terminal of this file records what the command
    writes. *)
Class imgpkg_api := {
  RegistryFlagsT : Type;
  RegistryOpts : Type;
  AsRegistryOpts : RegistryFlagsT -> RegistryOpts;
  DescribeBundle :
    string -> DescribeOpts.t -> RegistryOpts -> BundleDescription + error
}.

(** The one field of [BundleFlags] that [Run] reads. *)
Record BundleFlagsT := mkBundleFlags { Bundle : string }.

(** ** The command *)

Section Command.
Context `{names : regname} `{api : imgpkg_api}.

(** [DescribeOptions]: the command line options of the describe command. *)
Record DescribeOptions := mkDescribeOptions {
  ui : UI;
  BundleFlags : BundleFlagsT;
  RegistryFlags : RegistryFlagsT;
  Concurrency : Z;
  OutputType : string
}.

(** [DescribeOutputType]: the possible output options. *)
Definition DescribeOutputType : list string := ["text"; "yaml"].

(** The loop of [validateFlags]: the first value equal to the flag is
    stored in [outputType], and the loop breaks. *)
Fixpoint validateFlags_loop (values : list string) (flag outputType : string)
  : string :=
  match values with
  | [] => outputType
  | s :: rest =>
      if String.eqb s flag then s
      else validateFlags_loop rest flag outputType
  end.

Definition validateFlags (d : DescribeOptions) : option error :=
  let outputType := validateFlags_loop DescribeOutputType (OutputType d) "" in
  if String.eqb outputType "" then
    Some (Errorf
            "--output-type can only have the following values [text, yaml]")
  else None.

(** *** The text printer *)

Record bundleTextPrinter := mkBundleTextPrinter { p_ui : UI }.

Fixpoint printerRec (description : BundleDescription) (logger : UI)
  {struct description} : M UIState unit :=
  BeginLinef logger ("Images:" +:+ nl) ;;
  let indentLogger := NewIndentingUI logger in
  for_range
    (fun b =>
       BeginLinef indentLogger ("Image: " +:+ Image b +:+ nl) ;;
       BeginLinef indentLogger ("Type: Bundle" +:+ nl) ;;
       BeginLinef indentLogger ("Origin: " +:+ Origin b +:+ nl) ;;
       printerRec b indentLogger)
    (Bundles (Content description)) ;;
  for_range
    (fun image =>
       BeginLinef indentLogger ("Image: " +:+ ImageInfo.Image image +:+ nl) ;;
       BeginLinef indentLogger ("Type: Image" +:+ nl) ;;
       BeginLinef indentLogger ("Origin: " +:+ ImageInfo.Origin image +:+ nl))
    (Images (Content description)).

Definition Print (p : bundleTextPrinter) (description : BundleDescription)
  : M UIState unit :=
  let logger := NewUIPrefixedWriter "" (p_ui p) in
  match ParseReference (Image description) with
  | None =>
      panic ("Internal consistency: expected " +:+ Image description
             +:+ " to be a digest reference")
  | Some bundleRef =>
      BeginLinef logger ("Bundle SHA: " +:+ Identifier bundleRef +:+ nl) ;;
      BeginLinef logger nl ;;
      printerRec description (p_ui p)
  end.

(** *** Run *)

(** One invocation of the resolver, as [Run] makes it. *)
Record ResolverCall := mkResolverCall {
  call_bundle : string;
  call_opts : DescribeOpts.t;
  call_registry : RegistryOpts
}.

(** What [Run] acts on: the terminal, and the log of the invocations of
    the resolver, oldest first. *)
Record World := mkWorld {
  world_ui : UIState;
  world_calls : list ResolverCall
}.

(** A computation on the terminal, run in the world. *)
Definition on_ui {A} (m : M UIState A) : M World A :=
  fun w =>
    let (r, st) := m (world_ui w) in
    (r, mkWorld st (world_calls w)).

(** [api.DescribeBundle]: the call is logged, the resolver answers. *)
Definition api_DescribeBundle (bundle : string) (opts : DescribeOpts.t)
  (registry : RegistryOpts) : M World (BundleDescription + error) :=
  fun w =>
    (Returned (DescribeBundle bundle opts registry),
     mkWorld (world_ui w)
             (world_calls w ++ [mkResolverCall bundle opts registry])).

Definition Run (d : DescribeOptions) : M World (option error) :=
  match validateFlags d with
  | Some err => ret (Some err)
  | None =>
      let levelLogger := NewUILevelLogger LogWarn (ui d) in
      r <- api_DescribeBundle
             (Bundle (BundleFlags d))
             (DescribeOpts.mk levelLogger (Concurrency d))
             (AsRegistryOpts (RegistryFlags d)) ;;
      match r with
      | inr err => ret (Some err)
      | inl description =>
          (if String.eqb (OutputType d) "text" then
             let p := mkBundleTextPrinter (ui d) in
             on_ui (Print p description)
           else ret tt) ;;
          ret None
      end
  end.

(** The invocation of the resolver that [Run] makes. *)
Definition Run_call (d : DescribeOptions) : ResolverCall :=
  mkResolverCall (Bundle (BundleFlags d))
                 (DescribeOpts.mk (NewUILevelLogger LogWarn (ui d))
                                  (Concurrency d))
                 (AsRegistryOpts (RegistryFlags d)).

(** The answer of the resolver to it. *)
Definition resolved (d : DescribeOptions) : BundleDescription + error :=
  DescribeBundle (call_bundle (Run_call d)) (call_opts (Run_call d))
                 (call_registry (Run_call d)).
End Command.

(** [NewDescribeOptions]: the constructor takes the terminal UI
    ([*goui.ConfUI]) and leaves every flag at its zero value; the flags
    are set by cobra afterwards ([with_flags]). *)
Definition NewDescribeOptions `{api : imgpkg_api} (registry : RegistryFlagsT)
  : DescribeOptions :=
  mkDescribeOptions ConfUI (mkBundleFlags "") registry 0%Z "".

Definition with_flags `{api : imgpkg_api} (o : DescribeOptions)
  (bundle : string) (registry : RegistryFlagsT) (concurrency : Z)
  (outputType : string) : DescribeOptions :=
  mkDescribeOptions (ui o) (mkBundleFlags bundle) registry concurrency
                    outputType.

(** ** Reading the terminal *)

(** The lines of a text: every line feed ends a line; text after the last
    line feed is a last line. *)
Fixpoint lines (s : string) : list string :=
  match s with
  | EmptyString => []
  | String c rest =>
      if Ascii.eqb c LF then "" :: lines rest
      else match lines rest with
           | [] => [String c ""]
           | l :: ls => String c l :: ls
           end
  end.

(** A string without line feed. *)
Fixpoint single_line (s : string) : bool :=
  match s with
  | EmptyString => true
  | String c rest => negb (Ascii.eqb c LF) && single_line rest
  end.

(** [n] spaces. *)
Fixpoint spaces (n : nat) : string :=
  match n with
  | O => ""
  | S k => String " " (spaces k)
  end.

(** The number of spaces a line starts with, and the line without them. *)
Fixpoint leading_spaces (s : string) : nat :=
  match s with
  | String c rest => if Ascii.eqb c " " then S (leading_spaces rest) else 0
  | EmptyString => 0
  end.

Fixpoint strip_indent (s : string) : string :=
  match s with
  | String c rest => if Ascii.eqb c " " then strip_indent rest else s
  | EmptyString => ""
  end.

(** The kinds of lines of a node's block. *)
Definition is_image_line (l : string) : bool :=
  String.prefix "Image: " (strip_indent l).
Definition is_origin_line (l : string) : bool :=
  String.prefix "Origin: " (strip_indent l).
Definition is_type_bundle_line (l : string) : bool :=
  String.eqb (strip_indent l) "Type: Bundle".
Definition is_type_image_line (l : string) : bool :=
  String.eqb (strip_indent l) "Type: Image".
Definition is_type_line (l : string) : bool :=
  is_type_bundle_line l || is_type_image_line l.
Definition is_annotations_line (l : string) : bool :=
  String.eqb (strip_indent l) "Annotations:".

(** How many lines satisfy a test. *)
Fixpoint count_lines (test : string -> bool) (ls : list string) : nat :=
  match ls with
  | [] => 0
  | l :: rest => (if test l then 1 else 0) + count_lines test rest
  end.

(** Every [Type:] line has an [Image:] line right before it and an
    [Origin:] line right after it. *)
Definition type_lines_framed (ls : list string) : Prop :=
  forall (i : nat) (l : string),
    ls !! i = Some l ->
    is_type_line l = true ->
    exists (j : nat) (before after : string),
      i = S j
      /\ ls !! j = Some before /\ is_image_line before = true
      /\ ls !! S i = Some after /\ is_origin_line after = true.

(** [seg] is a run of consecutive lines of [ls]. *)
Definition segment_of (seg ls : list string) : Prop :=
  exists pre post : list string, ls = pre ++ seg ++ post.

(** The [Image:] lines of [ls] that are indented by [k] levels. *)
Definition reference_lines_at (k : nat) (ls : list string) : list string :=
  List.filter
    (fun l => is_image_line l && Nat.eqb (leading_spaces l) (2 * k)) ls.

(** A line, as the terminal receives it. *)
Definition with_nl (l : string) : string := l +:+ nl.

(** ** The tree, as the spec speaks of it *)

(** The printed references of a tree hold no line feed (the root's own
    reference is parsed, not printed). *)
Fixpoint single_line_refs (d : BundleDescription) : bool :=
  forallb
    (fun b => single_line (Image b) && single_line (Origin b)
              && single_line_refs b)
    (Bundles (Content d))
  && forallb
       (fun i => single_line (ImageInfo.Image i)
                 && single_line (ImageInfo.Origin i))
       (Images (Content d)).

(** The numbers of BundleNodes and ImageNodes below the root. *)
Fixpoint count_bundles (d : BundleDescription) : nat :=
  fold_right (fun b n => S (count_bundles b) + n) 0 (Bundles (Content d)).

Fixpoint count_images (d : BundleDescription) : nat :=
  length (Images (Content d))
  + fold_right (fun b n => count_images b + n) 0 (Bundles (Content d)).

(** A node of the tree below the root. *)
Inductive Node :=
| BundleNode (b : BundleDescription)
| ImageNode (i : ImageInfo.t).

Definition node_reference (n : Node) : string :=
  match n with
  | BundleNode b => Image b
  | ImageNode i => ImageInfo.Image i
  end.

Definition node_origin (n : Node) : string :=
  match n with
  | BundleNode b => Origin b
  | ImageNode i => ImageInfo.Origin i
  end.

Definition node_type (n : Node) : string :=
  match n with
  | BundleNode _ => "Bundle"
  | ImageNode _ => "Image"
  end.

(** [bundle_at root k b]: the bundle [b] sits [k] levels below [root]
    ([root] itself at level 0). *)
Inductive bundle_at (root : BundleDescription)
  : nat -> BundleDescription -> Prop :=
| bundle_at_root : bundle_at root 0 root
| bundle_at_child k parent b :
    bundle_at root k parent ->
    In b (Bundles (Content parent)) ->
    bundle_at root (S k) b.

(** [node_at root k n]: the node [n] has depth [k] from [root]: it is a
    child of a bundle at level [k - 1]. *)
Inductive node_at (root : BundleDescription) : nat -> Node -> Prop :=
| node_at_bundle k parent b :
    bundle_at root k parent ->
    In b (Bundles (Content parent)) ->
    node_at root (S k) (BundleNode b)
| node_at_image k parent i :
    bundle_at root k parent ->
    In i (Images (Content parent)) ->
    node_at root (S k) (ImageNode i).

(** The three lines of a node's block at indentation [k] levels of two
    spaces. *)
Definition node_block (k : nat) (n : Node) : list string :=
  [spaces (2 * k) +:+ "Image: " +:+ node_reference n;
   spaces (2 * k) +:+ "Type: " +:+ node_type n;
   spaces (2 * k) +:+ "Origin: " +:+ node_origin n].

(** The body of a bundle as section 4.2 of the spec words it: the
    [Images:] label, then every child bundle (its block, then its own body
    one level deeper), then every child image, each list in its order. *)
Fixpoint body_lines (k : nat) (d : BundleDescription) : list string :=
  (spaces (2 * k) +:+ "Images:")
  :: flat_map
       (fun b => node_block (S k) (BundleNode b) ++ body_lines (S k) b)
       (Bundles (Content d))
  ++ flat_map (fun i => node_block (S k) (ImageNode i))
              (Images (Content d)).

(** The nesting level of a UI: the number of indenting decorators. *)
Fixpoint ui_level (u : UI) : nat :=
  match u with
  | ConfUI => 0
  | indentingUI parent => S (ui_level parent)
  end.

(** The lines on the terminal after [printerRec] ran on an empty one. *)
Definition printed_body (d : BundleDescription) : list string :=
  lines (ui_text (snd (printerRec d ConfUI []))).

(** The lines on the terminal after [Print] ran on an empty one with the
    terminal UI; [None] when [Print] panics. *)
Definition printed `{names : regname} (d : BundleDescription)
  : option (list string) :=
  match Print (mkBundleTextPrinter ConfUI) d [] with
  | (Returned _, st) => Some (lines (ui_text st))
  | (Panicked _, _) => None
  end.

(** ** Examples *)

(** A reference parser for the examples: a reference is accepted when it
    holds an [@], and its identifier is what follows the first one. *)
Fixpoint after_at (s : string) : option string :=
  match s with
  | EmptyString => None
  | String c rest => if Ascii.eqb c "@" then Some rest else after_at rest
  end.

#[local] Instance example_names : regname := {|
  Reference := string;
  ParseReference := after_at;
  Identifier := fun r => r
|}.

(** The tree of the sample in the comment above [bundleTextPrinter]: the
    root holds a bundle with two images, the first of them annotated, and
    an image with the digest of the second. *)
Definition img1 : ImageInfo.t :=
  ImageInfo.mk
    "new.registry.io/simple-app-install-package@sha256:4c8b96d4fffdfae29258d94a22ae4ad1fe36139d47288b8960d9958d1e63a9d0"
    "registry.io/img1@sha256:4c8b96d4fffdfae29258d94a22ae4ad1fe36139d47288b8960d9958d1e63a9d0"
    {[ "kbld.carvel.dev/id" := "my.registry.io/simple-application" ]}.

Definition img2 : ImageInfo.t :=
  ImageInfo.mk
    "new.registry.io/simple-app-install-package@sha256:47ae428a887c41ba0aedf87d560eb305a8aa522ffb80ac1c96a37b16df038e0f"
    "registry.io/img2@sha256:47ae428a887c41ba0aedf87d560eb305a8aa522ffb80ac1c96a37b16df038e0f"
    ∅.

Definition bundle1 : BundleDescription :=
  mkBundleDescription
    "new.registry.io/simple-app-install-package@sha256:d211dd700949154e429d28661d01c99d53a38af0d5275842ccbf0bf6dbef8ca4"
    "my.registry.io/bundle1@sha256:d211dd700949154e429d28661d01c99d53a38af0d5275842ccbf0bf6dbef8ca4"
    (mkContent [] [img1; img2]).

Definition sample_root : BundleDescription :=
  mkBundleDescription
    "new.registry.io/simple-app-install-package@sha256:aaaaad700949154e429d28661d01c99d53a38af0d5275842ccbf0bf6dbef8ca4"
    "my.registry.io/root@sha256:aaaaad700949154e429d28661d01c99d53a38af0d5275842ccbf0bf6dbef8ca4"
    (mkContent [bundle1] [img2]).

(** A root without content. *)
Definition empty_root : BundleDescription :=
  mkBundleDescription "registry.io/empty@sha256:0000" "" (mkContent [] []).

(** A root whose reference the example parser rejects. *)
Definition unparsable_root : BundleDescription :=
  mkBundleDescription "not a reference" "" (mkContent [] []).

(** A resolver for the examples: it knows two bundles. *)
#[local] Instance example_api : imgpkg_api := {|
  RegistryFlagsT := unit;
  RegistryOpts := unit;
  AsRegistryOpts := fun flags => flags;
  DescribeBundle := fun bundle _ _ =>
    if String.eqb bundle "carvel.dev/app1-bundle" then inl sample_root
    else if String.eqb bundle "carvel.dev/broken" then inl unparsable_root
    else inr (errorString "bundle not found")
|}.

(** The options of [imgpkg describe -b <bundle> -o <outputType>]. *)
Definition example_options (bundle outputType : string) : DescribeOptions :=
  with_flags (NewDescribeOptions tt) bundle tt 5%Z outputType.

Definition empty_world : World := mkWorld [] [].

(** The text output format of section 6 of the spec, from its [Images:]
    label on, and the tree it draws: a bundle that holds one annotated
    image. *)
Definition spec_sample_body : list string :=
  ["Images:";
   "  Image: <ref>";
   "  Type: Bundle";
   "  Origin: <ref>";
   "    Images:";
   "      Image: <ref>";
   "      Type: Image";
   "      Origin: <ref>";
   "      Annotations:";
   "        <key>: <value>"].

Definition spec_sample_tree : BundleDescription :=
  mkBundleDescription "<ref>" "<ref>"
    (mkContent
       [mkBundleDescription "<ref>" "<ref>"
          (mkContent [] [ImageInfo.mk "<ref>" "<ref>"
                                      {[ "<key>" := "<value>" ]}])]
       []).

(** The sample in the comment above [bundleTextPrinter], from its
    [Images:] label on; it draws [sample_root]. *)
Definition comment_sample_body : list string :=
  ["Images:";
   "  - Image: new.registry.io/simple-app-install-package@sha256:d211dd700949154e429d28661d01c99d53a38af0d5275842ccbf0bf6dbef8ca4";
   "    Type: Bundle";
   "    Origin: my.registry.io/bundle1@sha256:d211dd700949154e429d28661d01c99d53a38af0d5275842ccbf0bf6dbef8ca4";
   "    Images:";
   "      - Image: new.registry.io/simple-app-install-package@sha256:4c8b96d4fffdfae29258d94a22ae4ad1fe36139d47288b8960d9958d1e63a9d0";
   "        Type: Image";
   "        Origin: registry.io/img1@sha256:4c8b96d4fffdfae29258d94a22ae4ad1fe36139d47288b8960d9958d1e63a9d0";
   "        Annotations:";
   "          kbld.carvel.dev/id: my.registry.io/simple-application";
   "";
   "      - Image: new.registry.io/simple-app-install-package@sha256:47ae428a887c41ba0aedf87d560eb305a8aa522ffb80ac1c96a37b16df038e0f";
   "        Type: Image";
   "        Origin: registry.io/img2@sha256:47ae428a887c41ba0aedf87d560eb305a8aa522ffb80ac1c96a37b16df038e0f";
   "  - Image: new.registry.io/simple-app-install-package@sha256:47ae428a887c41ba0aedf87d560eb305a8aa522ffb80ac1c96a37b16df038e0f";
   "    Type: Image";
   "    Origin: registry.io/img2@sha256:47ae428a887c41ba0aedf87d560eb305a8aa522ffb80ac1c96a37b16df038e0f"].

(** The lines of a node's block. *)
Definition is_block_line (l : string) : bool :=
  is_image_line l || is_type_line l || is_origin_line l.

(** The printed block lines are indented as the lines of the sample at
    the same places. *)
Definition indented_as_sample (printed sample : list string) : Prop :=
  forall (i : nat) (l s : string),
    printed !! i = Some l ->
    sample !! i = Some s ->
    is_block_line l = true ->
    leading_spaces l = leading_spaces s.

(** ** What of a tree reaches the terminal *)

(** An image without its annotations. *)
Definition plain_image (i : ImageInfo.t) : ImageInfo.t :=
  ImageInfo.mk (ImageInfo.Image i) (ImageInfo.Origin i) ∅.

(** The content of a tree without the annotations of its images, at every
    level. *)
Fixpoint rendered_content (d : BundleDescription) : BundleContent :=
  mkContent
    (map (fun b => mkBundleDescription (Image b) (Origin b)
                                       (rendered_content b))
         (Bundles (Content d)))
    (map plain_image (Images (Content d))).

(** The [Images:] label of a bundle. *)
Definition is_images_label_line (l : string) : bool :=
  String.eqb (strip_indent l) "Images:".

(** A line of the body of a rendered tree: a label or a line of a block,
    behind an even number of spaces. *)
Definition is_body_line (l : string) : bool :=
  (is_images_label_line l || is_image_line l || is_type_line l
   || is_origin_line l)
  && Nat.even (leading_spaces l).

(** The lines of the children of a bundle, printed at level [k]. *)
Definition children_lines (k : nat) (bs : list BundleDescription)
  (imgs : list ImageInfo.t) : list string :=
  flat_map (fun b => node_block k (BundleNode b) ++ body_lines k b) bs
  ++ flat_map (fun i => node_block k (ImageNode i)) imgs.

(** What follows the children of a bundle printed at level [k]: nothing,
    or a line indented by less than [k] levels. *)
Definition ends_level (k : nat) (rest : list string) : Prop :=
  match rest with
  | [] => True
  | l :: _ => leading_spaces l < 2 * k
  end.

(** A child bundle as [rendered_content] keeps it. *)
Definition rendered_bundle (b : BundleDescription) : BundleDescription :=
  mkBundleDescription (Image b) (Origin b) (rendered_content b).

(** [sample_root] with another origin, and with the annotation of its
    first image taken away. *)
Definition sample_root_plain : BundleDescription :=
  mkBundleDescription
    (Image sample_root) "elsewhere.io/root"
    (mkContent
       [mkBundleDescription (Image bundle1) (Origin bundle1)
                            (mkContent [] [plain_image img1; img2])]
       [img2]).

(** The world once [Run] has invoked the resolver. *)
Definition resolver_invoked `{api : imgpkg_api} (d : DescribeOptions)
  (w : World) : World :=
  mkWorld (world_ui w) (world_calls w ++ [Run_call d]).

(** A terminal that already shows a line. *)
Definition busy_world : World := mkWorld ["$ imgpkg describe" +:+ nl] [].

(** ** A root with several bundles and several images *)

(** A second bundle, whose digest comes before that of [bundle1]. *)
Definition bundle0 : BundleDescription :=
  mkBundleDescription
    "new.registry.io/other-package@sha256:0b7e5cf1a0d0bcf6a3f5e2e2a5a0c1c7b8c0fdc2a9f1d3e4b5a697887766554f"
    "my.registry.io/bundle0@sha256:0b7e5cf1a0d0bcf6a3f5e2e2a5a0c1c7b8c0fdc2a9f1d3e4b5a697887766554f"
    (mkContent [] [img2]).

(** A root with two bundles and three images, neither list in the order
    of its digests, the first image given twice. *)
Definition wide_root : BundleDescription :=
  mkBundleDescription
    (Image sample_root) (Origin sample_root)
    (mkContent [bundle1; bundle0] [img1; img2; img1]).

(** ** Tag and digest references *)

(** A model of package [name] of go-containerregistry, which is not part
    of this repository: by its documentation [ParseReference] parses the
    string as a reference, either by tag or by digest, and [Identifier]
    is the tag of a tag reference and the digest of a digest reference.
    The model covers references made of a repository of lower-case
    letters, digits and the characters [_-./:], followed by [:<tag>], by
    nothing (the tag is then [latest]) or by [@sha256:<64 hex digits>]. *)
Inductive NameReference :=
| TagReference (repository tag : string)
| DigestReference (repository digest : string).

Fixpoint contains_char (c : ascii) (s : string) : bool :=
  match s with
  | EmptyString => false
  | String a rest => Ascii.eqb a c || contains_char c rest
  end.

Fixpoint all_chars (test : ascii -> bool) (s : string) : bool :=
  match s with
  | EmptyString => true
  | String a rest => test a && all_chars test rest
  end.

(** The string before and the string after the first, or the last, [c]. *)
Fixpoint split_first (c : ascii) (s : string) : option (string * string) :=
  match s with
  | EmptyString => None
  | String a rest =>
      if Ascii.eqb a c then Some ("", rest)
      else match split_first c rest with
           | Some (before, after) => Some (String a before, after)
           | None => None
           end
  end.

Fixpoint split_last (c : ascii) (s : string) : option (string * string) :=
  match s with
  | EmptyString => None
  | String a rest =>
      match split_last c rest with
      | Some (before, after) => Some (String a before, after)
      | None => if Ascii.eqb a c then Some ("", rest) else None
      end
  end.

Definition char_between (lo hi c : ascii) : bool :=
  Nat.leb (nat_of_ascii lo) (nat_of_ascii c)
  && Nat.leb (nat_of_ascii c) (nat_of_ascii hi).

Definition repository_char (c : ascii) : bool :=
  char_between "a" "z" c || char_between "0" "9" c
  || contains_char c "_-./:".

Definition tag_char (c : ascii) : bool :=
  char_between "a" "z" c || char_between "A" "Z" c
  || char_between "0" "9" c || contains_char c "_.-".

Definition hex_char (c : ascii) : bool :=
  char_between "0" "9" c || char_between "a" "f" c.

Definition valid_repository (s : string) : bool :=
  negb (String.eqb s "") && all_chars repository_char s.

Definition valid_tag (t : string) : bool :=
  Nat.leb 1 (String.length t) && Nat.leb (String.length t) 128
  && all_chars tag_char t.

Definition valid_digest (d : string) : bool :=
  String.prefix "sha256:" d
  && Nat.eqb (String.length d) (7 + 64)
  && all_chars hex_char (String.substring 7 64 d).

(** [name.NewTag]: what follows the last colon is the tag, unless it
    holds a slash (it is then the port of a registry). *)
Definition NewTag (s : string) : option NameReference :=
  match split_last ":" s with
  | Some (base, t) =>
      if contains_char "/" t then
        if valid_repository s then Some (TagReference s "latest") else None
      else if String.eqb t "" then
        if valid_repository base then Some (TagReference base "latest")
        else None
      else if valid_tag t && valid_repository base then
        Some (TagReference base t)
      else None
  | None =>
      if valid_repository s then Some (TagReference s "latest") else None
  end.

(** [name.NewDigest]: exactly one [@], a digest behind it, and a
    repository, with or without a tag, before it. *)
Definition NewDigest (s : string) : option NameReference :=
  match split_first "@" s with
  | Some (base, d) =>
      if contains_char "@" d then None
      else if valid_digest d then
        match NewTag base with
        | Some (TagReference repository _) =>
            Some (DigestReference repository d)
        | _ => None
        end
      else None
  | None => None
  end.

(** [name.ParseReference]: a tag reference, or else a digest reference. *)
Definition name_ParseReference (s : string) : option NameReference :=
  match NewTag s with
  | Some t => Some t
  | None => NewDigest s
  end.

Definition name_Identifier (r : NameReference) : string :=
  match r with
  | TagReference _ t => t
  | DigestReference _ d => d
  end.

Definition registry_names : regname := {|
  Reference := NameReference;
  ParseReference := name_ParseReference;
  Identifier := name_Identifier
|}.

(** A root whose reference is a tag reference. *)
Definition tagged_root : BundleDescription :=
  mkBundleDescription "registry.io/app:v1" "" (mkContent [] []).

(** * Properties *)

(** ** Strings and lines *)

Lemma append_String (c : ascii) (s t : string) :
  String c s +:+ t = String c (s +:+ t).
Proof. reflexivity. Qed.

Lemma append_empty_l (t : string) : "" +:+ t = t.
Proof. reflexivity. Qed.

Lemma append_assoc (s t u : string) : (s +:+ t) +:+ u = s +:+ (t +:+ u).
Proof.
  induction s as [|c s IH]; [reflexivity|].
  rewrite !append_String. now rewrite IH.
Qed.

Lemma spaces_add (n m : nat) : spaces (n + m) = spaces n +:+ spaces m.
Proof.
  induction n as [|n IH]; [reflexivity|].
  cbn [Nat.add spaces]. rewrite append_String. now rewrite IH.
Qed.

Lemma spaces_snoc (n : nat) : spaces n +:+ "  " = spaces (2 + n).
Proof.
  change "  " with (spaces 2). rewrite <- spaces_add.
  f_equal. lia.
Qed.

Lemma single_line_append (s t : string) :
  single_line (s +:+ t) = single_line s && single_line t.
Proof.
  induction s as [|c s IH]; [reflexivity|].
  rewrite append_String. cbn [single_line]. rewrite IH.
  now rewrite andb_assoc.
Qed.

Lemma single_line_spaces (n : nat) : single_line (spaces n) = true.
Proof. induction n as [|n IH]; [reflexivity|exact IH]. Qed.

(** A line without line feed, its line feed, and what follows. *)
Lemma lines_cons (l rest : string) :
  single_line l = true -> lines (l +:+ nl +:+ rest) = l :: lines rest.
Proof.
  induction l as [|c l IH]; intros Hl.
  - reflexivity.
  - cbn [single_line] in Hl. apply andb_true_iff in Hl as [Hc Hl].
    rewrite append_String. cbn [lines].
    apply negb_true_iff in Hc. rewrite Hc.
    now rewrite (IH Hl).
Qed.

Lemma ui_text_app (a b : UIState) : ui_text (a ++ b) = ui_text a +:+ ui_text b.
Proof.
  induction a as [|x a IH]; [reflexivity|].
  cbn [app ui_text fold_right]. fold (ui_text (a ++ b)). fold (ui_text a).
  rewrite IH. now rewrite append_assoc.
Qed.

(** The terminal shows the lines it was handed, when each came with its
    line feed and held no other. *)
Lemma lines_ui_text_map (ls : list string) :
  forallb single_line ls = true ->
  lines (ui_text (map (fun l => l +:+ nl) ls)) = ls.
Proof.
  induction ls as [|l ls IH]; intros Hls; [reflexivity|].
  cbn [forallb] in Hls. apply andb_true_iff in Hls as [Hl Hls].
  cbn [map ui_text fold_right]. fold (ui_text (map (fun l => l +:+ nl) ls)).
  rewrite append_assoc. rewrite (lines_cons _ _ Hl). now rewrite (IH Hls).
Qed.

Lemma leading_spaces_indent (n : nat) (s : string) :
  leading_spaces s = 0 -> leading_spaces (spaces n +:+ s) = n.
Proof.
  intros Hs. induction n as [|n IH]; [exact Hs|].
  cbn [spaces]. rewrite append_String. cbn [leading_spaces].
  now rewrite IH.
Qed.

Lemma strip_indent_spaces (n : nat) (s : string) :
  strip_indent (spaces n +:+ s) = strip_indent s.
Proof.
  induction n as [|n IH]; [reflexivity|].
  cbn [spaces]. rewrite append_String. exact IH.
Qed.

(** ** The indenting UI *)

(** A UI of level [k] hands the terminal the text behind [2 * k] spaces. *)
Lemma UI_BeginLinef_level (u : UI) (text : string) (st : UIState) :
  UI_BeginLinef u text st
  = (Returned tt, st ++ [spaces (2 * ui_level u) +:+ text]).
Proof.
  revert text. induction u as [|parent IH]; intros text.
  - reflexivity.
  - cbn [UI_BeginLinef ui_level]. rewrite IH. unfold indent_unit.
    rewrite <- append_assoc, spaces_snoc.
    replace (2 + 2 * ui_level parent) with (2 * S (ui_level parent)) by lia.
    reflexivity.
Qed.

(** ** Induction on description trees *)

(** A property holds of every tree when it holds of a tree as soon as it
    holds of its child bundles. *)
Lemma BundleDescription_tree_ind (P : BundleDescription -> Prop) :
  (forall d, Forall P (Bundles (Content d)) -> P d) ->
  forall d, P d.
Proof.
  intros step. fix IH 1. intros d. apply step.
  destruct d as [img org [bs imgs]]. cbn [Content Bundles].
  induction bs as [|b bs IHbs]; constructor; [apply IH | exact IHbs].
Qed.

(** ** The monad *)

Lemma bind_Returned {St A B} (m : M St A) (k : A -> M St B) st a st' :
  m st = (Returned a, st') -> bind m k st = k a st'.
Proof. intros H. unfold bind. now rewrite H. Qed.

Lemma bind_Panicked {St A B} (m : M St A) (k : A -> M St B) st msg st' :
  m st = (Panicked msg, st') -> bind m k st = (Panicked msg, st').
Proof. intros H. unfold bind. now rewrite H. Qed.

(** A loop whose every round appends texts to the terminal appends them
    all, in the order of the list. *)
Lemma for_range_appends {A} (body : A -> M UIState unit)
  (out : A -> list string) (xs : list A) :
  Forall (fun x => forall st, body x st = (Returned tt, st ++ out x)) xs ->
  forall st, for_range body xs st = (Returned tt, st ++ flat_map out xs).
Proof.
  induction 1 as [|x xs Hx _ IH]; intros st.
  - cbn. now rewrite app_nil_r.
  - cbn [for_range flat_map]. erewrite bind_Returned by apply Hx.
    fold (for_range body xs). rewrite IH. now rewrite app_assoc.
Qed.

Lemma map_flat_map {A B C} (f : B -> C) (g : A -> list B) (xs : list A) :
  map f (flat_map g xs) = flat_map (fun x => map f (g x)) xs.
Proof.
  induction xs as [|x xs IH]; [reflexivity|].
  cbn [flat_map]. rewrite map_app. now rewrite IH.
Qed.

(** ** [printerRec] writes the body of the spec *)

Lemma printerRec_unfold (description : BundleDescription) (logger : UI) :
  printerRec description logger =
  (BeginLinef logger ("Images:" +:+ nl) ;;
   let indentLogger := NewIndentingUI logger in
   for_range
     (fun b =>
        BeginLinef indentLogger ("Image: " +:+ Image b +:+ nl) ;;
        BeginLinef indentLogger ("Type: Bundle" +:+ nl) ;;
        BeginLinef indentLogger ("Origin: " +:+ Origin b +:+ nl) ;;
        printerRec b indentLogger)
     (Bundles (Content description)) ;;
   for_range
     (fun image =>
        BeginLinef indentLogger ("Image: " +:+ ImageInfo.Image image +:+ nl) ;;
        BeginLinef indentLogger ("Type: Image" +:+ nl) ;;
        BeginLinef indentLogger ("Origin: " +:+ ImageInfo.Origin image +:+ nl))
     (Images (Content description))).
Proof. destruct description as [img org [bs imgs]]. reflexivity. Qed.

Lemma BeginLinef_UI (u : UI) (text : string) (st : UIState) :
  BeginLinef u text st
  = (Returned tt, st ++ [spaces (2 * ui_level u) +:+ text]).
Proof. apply UI_BeginLinef_level. Qed.

(** Runs the [BeginLinef] at the head of a sequence. *)
Ltac write_line := erewrite bind_Returned by apply BeginLinef_UI.

Lemma printerRec_writes (d : BundleDescription) :
  forall (logger : UI) (st : UIState),
    printerRec d logger st
    = (Returned tt, st ++ map with_nl (body_lines (ui_level logger) d)).
Proof.
  induction d as [d IH] using BundleDescription_tree_ind.
  intros logger st. rewrite printerRec_unfold.
  write_line. cbv zeta.
  erewrite bind_Returned; cycle 1.
  { apply (for_range_appends _
      (fun b => map with_nl (node_block (S (ui_level logger)) (BundleNode b)
                             ++ body_lines (S (ui_level logger)) b))).
    eapply Forall_impl; [exact IH|]. intros b IHb st0. cbv beta.
    do 3 write_line.
    rewrite IHb. unfold NewIndentingUI. cbn [ui_level].
    rewrite map_app. unfold node_block.
    cbn [map node_reference node_type node_origin]. unfold with_nl.
    rewrite !append_assoc. rewrite <- !app_assoc. reflexivity. }
  erewrite for_range_appends with
    (out := fun i => map with_nl (node_block (S (ui_level logger)) (ImageNode i))).
  - destruct d as [img org [bs imgs]]. cbn [Content Bundles Images body_lines].
    rewrite <- !app_assoc. cbn [map app]. rewrite map_app.
    rewrite !map_flat_map. unfold with_nl at 3. rewrite append_assoc.
    reflexivity.
  - apply Forall_forall. intros i _ st0.
    do 2 write_line.
    rewrite BeginLinef_UI. unfold NewIndentingUI. cbn [ui_level].
    unfold node_block. cbn [map node_reference node_type node_origin].
    unfold with_nl. rewrite !append_assoc. rewrite <- !app_assoc. reflexivity.
Qed.

(** ** The lines on the terminal *)

Lemma single_line_node_block (k : nat) (n : Node) :
  single_line (node_reference n) = true ->
  single_line (node_origin n) = true ->
  forallb single_line (node_block k n) = true.
Proof.
  intros Hr Ho. unfold node_block. cbn [forallb].
  rewrite !single_line_append, !single_line_spaces, Hr, Ho.
  destruct n; reflexivity.
Qed.

Lemma single_line_body_lines (d : BundleDescription) :
  single_line_refs d = true ->
  forall k, forallb single_line (body_lines k d) = true.
Proof.
  induction d as [d IH] using BundleDescription_tree_ind.
  destruct d as [img org [bs imgs]].
  cbn [Content Bundles Images single_line_refs body_lines] in *.
  intros Hd k. apply andb_true_iff in Hd as [Hbs Himgs].
  cbn [forallb]. rewrite single_line_append, single_line_spaces.
  replace (single_line "Images:") with true by reflexivity.
  cbn [andb]. rewrite forallb_app. apply andb_true_iff. split.
  - clear Himgs. induction bs as [|b bs IHbs]; [reflexivity|].
    cbn [forallb] in Hbs. apply andb_true_iff in Hbs as [Hb Hbs].
    apply andb_true_iff in Hb as [Hb Hsub].
    apply andb_true_iff in Hb as [Hbi Hbo].
    apply Forall_cons in IH as [IHb IH].
    cbn [flat_map]. rewrite !forallb_app.
    rewrite (single_line_node_block _ (BundleNode b) Hbi Hbo).
    rewrite (IHb Hsub). now rewrite (IHbs IH Hbs).
  - clear Hbs IH. induction imgs as [|i imgs IHi]; [reflexivity|].
    cbn [forallb] in Himgs. apply andb_true_iff in Himgs as [Hi Himgs].
    apply andb_true_iff in Hi as [Hii Hio].
    cbn [flat_map]. rewrite forallb_app.
    rewrite (single_line_node_block _ (ImageNode i) Hii Hio).
    now rewrite (IHi Himgs).
Qed.

(** On a tree whose printed references are single lines, the terminal
    shows the body of the spec, line by line. *)
Lemma printed_body_lines (d : BundleDescription) :
  single_line_refs d = true -> printed_body d = body_lines 0 d.
Proof.
  intros Hd. unfold printed_body. rewrite printerRec_writes.
  cbn [snd app ui_level]. apply lines_ui_text_map.
  now apply single_line_body_lines.
Qed.

Section Printing.
Context `{names : regname}.

(** What [Print] hands the terminal when the reference parses. *)
Lemma Print_writes (p : bundleTextPrinter) (d : BundleDescription)
  (r : Reference) (st : UIState) :
  ParseReference (Image d) = Some r ->
  Print p d st
  = (Returned tt,
     st ++ map with_nl
             ((spaces (2 * ui_level (p_ui p)) +:+ "Bundle SHA: "
               +:+ Identifier r)
              :: spaces (2 * ui_level (p_ui p))
              :: body_lines (ui_level (p_ui p)) d)).
Proof.
  intros Hr. unfold Print. rewrite Hr. cbv zeta.
  unfold BeginLinef at 1 2, UIPrefixWriter_logger, NewUIPrefixedWriter.
  cbn [pw_ui prefix]. rewrite !append_empty_l.
  do 2 (erewrite bind_Returned by apply UI_BeginLinef_level).
  rewrite printerRec_writes. cbn [map]. unfold with_nl at 2 3.
  rewrite !append_assoc, <- !app_assoc. reflexivity.
Qed.

Lemma printed_lines (d : BundleDescription) (r : Reference) :
  ParseReference (Image d) = Some r ->
  single_line (Identifier r) = true ->
  single_line_refs d = true ->
  printed d = Some (("Bundle SHA: " +:+ Identifier r) :: ""
                    :: body_lines 0 d).
Proof.
  intros Hr Hid Hd. unfold printed.
  rewrite (Print_writes _ _ r _ Hr). cbn [p_ui ui_level app Nat.mul spaces].
  rewrite !append_empty_l. f_equal. apply lines_ui_text_map.
  cbn [forallb]. rewrite single_line_append, Hid.
  now rewrite single_line_body_lines.
Qed.
End Printing.

(** ** The command: validation, resolution, rendering *)

Section Command_properties.
Context `{names : regname} `{api : imgpkg_api}.

(** The error of an invalid [--output-type]. *)
Lemma validateFlags_loop_miss (flag : string) :
  flag <> "text" -> flag <> "yaml" ->
  validateFlags_loop DescribeOutputType flag "" = "".
Proof.
  intros Htext Hyaml. unfold DescribeOutputType. cbn [validateFlags_loop].
  destruct (String.eqb_spec "text" flag) as [E|_]; [now subst|].
  destruct (String.eqb_spec "yaml" flag) as [E|_]; [now subst|].
  reflexivity.
Qed.

Lemma validateFlags_valid (d : DescribeOptions) :
  OutputType d = "text" \/ OutputType d = "yaml" -> validateFlags d = None.
Proof. intros [E|E]; unfold validateFlags; rewrite E; reflexivity. Qed.

(** C2: validation succeeds on ["text"] and on ["yaml"]; on every other
    string it fails, and the message of the error is exactly
    [--output-type can only have the following values [text, yaml]]. *)
Theorem validateFlags_enumeration (d : DescribeOptions) :
  (OutputType d = "text" \/ OutputType d = "yaml" ->
   validateFlags d = None)
  /\ (OutputType d <> "text" -> OutputType d <> "yaml" ->
      exists err : error,
        validateFlags d = Some err
        /\ Error err
           = "--output-type can only have the following values [text, yaml]").
Proof.
  split.
  - apply validateFlags_valid.
  - intros Htext Hyaml. eexists. split.
    + unfold validateFlags. now rewrite validateFlags_loop_miss.
    + reflexivity.
Qed.

(** C3: with an output type outside the enumeration, [Run] returns the
    configuration error and leaves the world as it found it, whatever
    the resolver is: no invocation of the resolver is logged (and
    nothing reaches the terminal). *)
Theorem Run_invalid_output_type (d : DescribeOptions) (w : World) :
  OutputType d <> "text" -> OutputType d <> "yaml" ->
  Run d w
  = (Returned
       (Some (Errorf
          "--output-type can only have the following values [text, yaml]")),
     w)
  /\ world_calls (snd (Run d w)) = world_calls w.
Proof.
  intros Htext Hyaml.
  assert (Run d w
          = (Returned (Some (Errorf
               "--output-type can only have the following values [text, yaml]")),
             w)) as E.
  { unfold Run, validateFlags.
    now rewrite validateFlags_loop_miss. }
  split; [exact E|]. now rewrite E.
Qed.

(** C9: when the resolver fails, [Run] returns the resolver's error
    itself; the terminal is as it was, the one change of the world being
    the logged invocation of the resolver. *)
Theorem Run_resolution_error (d : DescribeOptions) (w : World) (err : error) :
  OutputType d = "text" \/ OutputType d = "yaml" ->
  resolved d = inr err ->
  Run d w
  = (Returned (Some err),
     mkWorld (world_ui w) (world_calls w ++ [Run_call d])).
Proof.
  intros Hvalid Herr. unfold Run.
  rewrite (validateFlags_valid d Hvalid). cbv zeta.
  erewrite bind_Returned by reflexivity.
  unfold resolved, Run_call in Herr.
  cbn [call_bundle call_opts call_registry] in Herr.
  rewrite Herr. reflexivity.
Qed.

(** C10: with output type ["yaml"] and a resolver that succeeds, [Run]
    returns [nil] and nothing reaches the terminal. *)
Theorem Run_yaml_prints_nothing (d : DescribeOptions) (w : World)
  (description : BundleDescription) :
  OutputType d = "yaml" ->
  resolved d = inl description ->
  Run d w
  = (Returned None,
     mkWorld (world_ui w) (world_calls w ++ [Run_call d])).
Proof.
  intros Hyaml Hok. unfold Run.
  rewrite (validateFlags_valid d (or_intror Hyaml)). cbv zeta.
  erewrite bind_Returned by reflexivity.
  unfold resolved, Run_call in Hok.
  cbn [call_bundle call_opts call_registry] in Hok.
  rewrite Hok, Hyaml. reflexivity.
Qed.

(** C7: for a root without bundles and without images, the text on the
    terminal is the header line, an empty line and the [Images:] label,
    and nothing else. *)
Theorem Print_empty_root (d : BundleDescription) (r : Reference) :
  ParseReference (Image d) = Some r ->
  Bundles (Content d) = [] ->
  Images (Content d) = [] ->
  exists st : UIState,
    Print (mkBundleTextPrinter ConfUI) d [] = (Returned tt, st)
    /\ ui_text st
       = ("Bundle SHA: " +:+ Identifier r +:+ nl)
         +:+ nl +:+ ("Images:" +:+ nl).
Proof.
  intros Hr Hbs Himgs. eexists. split.
  - apply (Print_writes _ _ r _ Hr).
  - destruct d as [img org [bs imgs]]. cbn [Content Bundles Images] in *.
    subst bs imgs. cbn [p_ui ui_level body_lines flat_map app map].
    unfold with_nl, ui_text. cbn [fold_right Nat.mul spaces].
    rewrite !append_empty_l, !append_assoc. reflexivity.
Qed.

(** The guard of [Print]: when [ParseReference] rejects the root's
    reference, [Print] panics, having written nothing, and so does [Run]:
    the failure is not a returned error. When [ParseReference] accepts
    it, [Print] returns, and the first text on the terminal is the header
    with the identifier of the parsed reference. *)
Theorem Print_reference_check (p : bundleTextPrinter)
  (d : BundleDescription) (st : UIState) :
  (ParseReference (Image d) = None ->
   Print p d st
   = (Panicked ("Internal consistency: expected " +:+ Image d
                +:+ " to be a digest reference"), st)
   /\ forall (o : DescribeOptions) (w : World),
        OutputType o = "text" ->
        resolved o = inl d ->
        exists msg w', Run o w = (Panicked msg, w')
                       /\ world_ui w' = world_ui w)
  /\ (forall r : Reference,
        ParseReference (Image d) = Some r ->
        exists rest : list string,
          Print p d st
          = (Returned tt,
             st ++ (spaces (2 * ui_level (p_ui p)) +:+ "Bundle SHA: "
                    +:+ Identifier r +:+ nl) :: rest)).
Proof.
  split.
  - intros Hnone. split.
    + unfold Print. now rewrite Hnone.
    + intros o w Htext Hok. unfold Run.
      rewrite (validateFlags_valid o (or_introl Htext)).
      cbv zeta. erewrite bind_Returned by reflexivity.
      unfold resolved, Run_call in Hok.
      cbn [call_bundle call_opts call_registry] in Hok.
      rewrite Hok, Htext.
      replace (String.eqb "text" "text") with true by reflexivity.
      do 2 eexists. split.
      * erewrite bind_Panicked; [reflexivity|].
        unfold on_ui, Print. cbn [p_ui world_ui]. rewrite Hnone.
        reflexivity.
      * reflexivity.
  - intros r Hr. eexists. rewrite (Print_writes _ _ r _ Hr).
    cbn [map]. unfold with_nl at 1. rewrite !append_assoc. reflexivity.
Qed.
End Command_properties.

(** ** The kinds of lines *)

Section Line_kinds.
Variables (k : nat) (x : string).

Lemma is_type_bundle_line_spaces :
  is_type_bundle_line (spaces k +:+ x) = is_type_bundle_line x.
Proof. unfold is_type_bundle_line. now rewrite strip_indent_spaces. Qed.

Lemma is_type_image_line_spaces :
  is_type_image_line (spaces k +:+ x) = is_type_image_line x.
Proof. unfold is_type_image_line. now rewrite strip_indent_spaces. Qed.

Lemma is_type_line_spaces :
  is_type_line (spaces k +:+ x) = is_type_line x.
Proof.
  unfold is_type_line.
  now rewrite is_type_bundle_line_spaces, is_type_image_line_spaces.
Qed.

Lemma is_image_line_spaces :
  is_image_line (spaces k +:+ x) = is_image_line x.
Proof. unfold is_image_line. now rewrite strip_indent_spaces. Qed.

Lemma is_origin_line_spaces :
  is_origin_line (spaces k +:+ x) = is_origin_line x.
Proof. unfold is_origin_line. now rewrite strip_indent_spaces. Qed.

Lemma image_line_kind :
  is_image_line ("Image: " +:+ x) = true
  /\ is_type_bundle_line ("Image: " +:+ x) = false
  /\ is_type_image_line ("Image: " +:+ x) = false.
Proof. repeat split; destruct x; reflexivity. Qed.

Lemma origin_line_kind :
  is_origin_line ("Origin: " +:+ x) = true
  /\ is_type_bundle_line ("Origin: " +:+ x) = false
  /\ is_type_image_line ("Origin: " +:+ x) = false.
Proof. repeat split; destruct x; reflexivity. Qed.

Lemma header_line_kind :
  is_type_bundle_line ("Bundle SHA: " +:+ x) = false
  /\ is_type_image_line ("Bundle SHA: " +:+ x) = false.
Proof. split; reflexivity. Qed.
End Line_kinds.

(** ** Counting the [Type:] lines *)

Lemma count_lines_app (test : string -> bool) (a b : list string) :
  count_lines test (a ++ b) = count_lines test a + count_lines test b.
Proof.
  induction a as [|l a IH]; [reflexivity|].
  cbn [app count_lines]. rewrite IH. lia.
Qed.

Lemma count_type_lines_node_block (k : nat) (n : Node) :
  count_lines is_type_bundle_line (node_block k n)
  = match n with BundleNode _ => 1 | ImageNode _ => 0 end
  /\ count_lines is_type_image_line (node_block k n)
     = match n with BundleNode _ => 0 | ImageNode _ => 1 end.
Proof.
  unfold node_block. cbn [count_lines].
  rewrite !is_type_bundle_line_spaces, !is_type_image_line_spaces.
  destruct (image_line_kind (node_reference n)) as (_ & -> & ->).
  destruct (origin_line_kind (node_origin n)) as (_ & -> & ->).
  destruct n; split; reflexivity.
Qed.

Lemma count_type_lines_body (d : BundleDescription) :
  forall k : nat,
    count_lines is_type_bundle_line (body_lines k d) = count_bundles d
    /\ count_lines is_type_image_line (body_lines k d) = count_images d.
Proof.
  induction d as [d IH] using BundleDescription_tree_ind.
  destruct d as [img org [bs imgs]].
  cbn [Content Bundles Images body_lines count_bundles count_images] in *.
  intros k. cbn [count_lines].
  rewrite !is_type_bundle_line_spaces, !is_type_image_line_spaces.
  replace (is_type_bundle_line "Images:") with false by reflexivity.
  replace (is_type_image_line "Images:") with false by reflexivity.
  rewrite !count_lines_app. cbn [Nat.add].
  assert (forall test,
            (forall i, count_lines test (node_block (S k) (ImageNode i)) = 0) ->
            count_lines test
              (flat_map (fun i => node_block (S k) (ImageNode i)) imgs) = 0)
    as Hnone.
  { intros test Htest. clear IH.
    induction imgs as [|i imgs IHi]; [reflexivity|].
    cbn [flat_map]. rewrite count_lines_app, Htest. exact IHi. }
  assert (forall test,
            (forall i, count_lines test (node_block (S k) (ImageNode i)) = 1) ->
            count_lines test
              (flat_map (fun i => node_block (S k) (ImageNode i)) imgs)
            = length imgs)
    as Hone.
  { intros test Htest. clear IH Hnone.
    induction imgs as [|i imgs IHi]; [reflexivity|].
    cbn [flat_map length]. rewrite count_lines_app, Htest. now rewrite IHi. }
  rewrite Hnone by (intros i; apply (count_type_lines_node_block _ (ImageNode i))).
  rewrite Hone by (intros i; apply (count_type_lines_node_block _ (ImageNode i))).
  clear Hnone Hone.
  induction bs as [|b bs IHbs].
  - cbn [flat_map fold_right count_lines]. split; lia.
  - apply Forall_cons in IH as [IHb IH]. specialize (IHbs IH).
    destruct IHbs as [IHbs1 IHbs2]. destruct (IHb (S k)) as [IHb1 IHb2].
    cbn [flat_map fold_right]. rewrite !count_lines_app.
    destruct (count_type_lines_node_block (S k) (BundleNode b)) as [-> ->].
    rewrite IHb1, IHb2. split; lia.
Qed.

(** ** [Type:] lines sit between an [Image:] and an [Origin:] line *)

Lemma type_lines_framed_app (a b : list string) :
  type_lines_framed a -> type_lines_framed b -> type_lines_framed (a ++ b).
Proof.
  intros Ha Hb i l Hi Hl. apply lookup_app_Some in Hi as [Hi|[Hlen Hi]].
  - destruct (Ha i l Hi Hl) as (j & before & after & -> & Hj & Hb' & Hn & Ha').
    exists j, before, after. repeat split; try assumption.
    + now apply lookup_app_l_Some.
    + now apply lookup_app_l_Some.
  - destruct (Hb _ l Hi Hl) as (j & before & after & Hij & Hj & Hb' & Hn & Ha').
    exists (length a + j), before, after. repeat split; try assumption.
    + lia.
    + rewrite lookup_app_r by lia.
      now replace (length a + j - length a) with j by lia.
    + rewrite lookup_app_r by lia.
      now replace (S i - length a) with (S (i - length a)) by lia.
Qed.

Lemma type_lines_framed_nil : type_lines_framed [].
Proof. intros i l Hi. now rewrite lookup_nil in Hi. Qed.

Lemma type_lines_framed_plain (l : string) :
  is_type_line l = false -> type_lines_framed [l].
Proof.
  intros Hl [|i] l' Hi Hl'.
  - cbn in Hi. injection Hi as <-. congruence.
  - cbn in Hi. discriminate Hi.
Qed.

Lemma type_lines_framed_node_block (k : nat) (n : Node) :
  type_lines_framed (node_block k n).
Proof.
  unfold node_block. intros [|[|[|i]]] l Hi Hl; cbn in Hi.
  - injection Hi as <-. rewrite is_type_line_spaces in Hl.
    unfold is_type_line in Hl.
    destruct (image_line_kind (node_reference n)) as (_ & E1 & E2).
    rewrite E1, E2 in Hl. discriminate.
  - eexists 0, _, _. repeat split.
    + rewrite is_image_line_spaces. apply image_line_kind.
    + rewrite is_origin_line_spaces. apply origin_line_kind.
  - injection Hi as <-. rewrite is_type_line_spaces in Hl.
    unfold is_type_line in Hl.
    destruct (origin_line_kind (node_origin n)) as (_ & E1 & E2).
    rewrite E1, E2 in Hl. discriminate.
  - discriminate Hi.
Qed.

Lemma type_lines_framed_flat_map {A} (f : A -> list string) (xs : list A) :
  Forall (fun x => type_lines_framed (f x)) xs ->
  type_lines_framed (flat_map f xs).
Proof.
  induction 1 as [|x xs Hx _ IH]; cbn [flat_map].
  - apply type_lines_framed_nil.
  - now apply type_lines_framed_app.
Qed.

Lemma type_lines_framed_body (d : BundleDescription) :
  forall k : nat, type_lines_framed (body_lines k d).
Proof.
  induction d as [d IH] using BundleDescription_tree_ind.
  destruct d as [img org [bs imgs]].
  cbn [Content Bundles Images body_lines] in *. intros k.
  apply (type_lines_framed_app [_]).
  { apply type_lines_framed_plain. now rewrite is_type_line_spaces. }
  apply type_lines_framed_app.
  - apply type_lines_framed_flat_map.
    eapply Forall_impl; [exact IH|]. intros b IHb. cbv beta.
    apply type_lines_framed_app;
      [apply type_lines_framed_node_block | apply IHb].
  - apply type_lines_framed_flat_map, Forall_forall. intros i _.
    apply type_lines_framed_node_block.
Qed.

(** ** Runs of consecutive lines *)

Lemma segment_of_refl (ls : list string) : segment_of ls ls.
Proof. exists [], []. now rewrite app_nil_r. Qed.

Lemma segment_of_context (seg ls a b : list string) :
  segment_of seg ls -> segment_of seg (a ++ ls ++ b).
Proof.
  intros (pre & post & ->). exists (a ++ pre), (post ++ b).
  now rewrite <- !app_assoc.
Qed.

Lemma segment_of_skip (seg ls a : list string) :
  segment_of seg ls -> segment_of seg (a ++ ls).
Proof.
  intros H. apply (segment_of_context _ _ a []) in H.
  now rewrite app_nil_r in H.
Qed.

Lemma segment_of_trans (a b c : list string) :
  segment_of a b -> segment_of b c -> segment_of a c.
Proof.
  intros Hab (pre & post & ->). now apply segment_of_context.
Qed.

Lemma segment_of_flat_map {A} (f : A -> list string) (x : A) (xs : list A) :
  In x xs -> segment_of (f x) (flat_map f xs).
Proof.
  intros Hx. apply in_split in Hx as (l1 & l2 & ->).
  rewrite flat_map_app. cbn [flat_map].
  exists (flat_map f l1), (flat_map f l2). reflexivity.
Qed.

(** The block of a child bundle followed by its body, and the block of a
    child image, are runs of the body of their parent. *)
Lemma child_bundle_segment (k : nat) (parent b : BundleDescription) :
  In b (Bundles (Content parent)) ->
  segment_of (node_block (S k) (BundleNode b) ++ body_lines (S k) b)
             (body_lines k parent).
Proof.
  intros Hb. destruct parent as [img org [bs imgs]].
  cbn [Content Bundles Images body_lines] in *.
  apply (segment_of_context _ _ [_]).
  now apply (segment_of_flat_map
               (fun b => node_block (S k) (BundleNode b) ++ body_lines (S k) b)).
Qed.

Lemma child_image_segment (k : nat) (parent : BundleDescription)
  (i : ImageInfo.t) :
  In i (Images (Content parent)) ->
  segment_of (node_block (S k) (ImageNode i)) (body_lines k parent).
Proof.
  intros Hi. destruct parent as [img org [bs imgs]].
  cbn [Content Bundles Images body_lines] in *.
  apply (segment_of_trans _ (flat_map (fun i => node_block (S k) (ImageNode i)) imgs)).
  - now apply (segment_of_flat_map (fun i => node_block (S k) (ImageNode i))).
  - eexists (_ :: _), []. rewrite app_nil_r. reflexivity.
Qed.

(** The body of a bundle [k] levels below the root is a run of the body
    of the root, [k] levels deeper. *)
Lemma bundle_at_segment (root n : BundleDescription) (k : nat) :
  bundle_at root k n ->
  forall k0 : nat, segment_of (body_lines (k0 + k) n) (body_lines k0 root).
Proof.
  induction 1 as [|k parent b _ IH Hb]; intros k0.
  - rewrite Nat.add_0_r. apply segment_of_refl.
  - eapply segment_of_trans; [|apply IH].
    eapply segment_of_trans; [|apply child_bundle_segment, Hb].
    replace (k0 + S k) with (S (k0 + k)) by lia.
    eexists _, []. rewrite app_nil_r. reflexivity.
Qed.

Lemma node_at_segment (root : BundleDescription) (n : Node) (k : nat) :
  node_at root k n -> segment_of (node_block k n) (body_lines 0 root).
Proof.
  intros [k' parent b Hp Hb|k' parent i Hp Hi].
  - eapply segment_of_trans; [|apply (bundle_at_segment _ _ _ Hp 0)].
    eapply segment_of_trans; [|apply child_bundle_segment, Hb].
    exists [], (body_lines (S k') b). reflexivity.
  - eapply segment_of_trans; [|apply (bundle_at_segment _ _ _ Hp 0)].
    now apply child_image_segment.
Qed.

(** ** Indentation *)

Lemma leading_spaces_node_block (k : nat) (n : Node) :
  Forall (fun l => leading_spaces l = 2 * k) (node_block k n).
Proof.
  unfold node_block. repeat constructor;
    apply leading_spaces_indent; reflexivity.
Qed.

(** Below a bundle at level [k], every [Image:] line is indented by more
    than [k] levels. *)
Lemma image_lines_deeper (d : BundleDescription) :
  forall k : nat,
    Forall (fun l => is_image_line l = true -> 2 * k < leading_spaces l)
           (body_lines k d).
Proof.
  induction d as [d IH] using BundleDescription_tree_ind.
  destruct d as [img org [bs imgs]].
  cbn [Content Bundles Images body_lines] in *. intros k.
  assert (forall n, Forall
            (fun l => is_image_line l = true -> 2 * k < leading_spaces l)
            (node_block (S k) n)) as Hblock.
  { intros n. eapply Forall_impl; [apply leading_spaces_node_block|].
    cbv beta. intros l -> _. lia. }
  constructor.
  { rewrite is_image_line_spaces. discriminate. }
  apply Forall_app. split.
  - apply Forall_flat_map. eapply Forall_impl; [exact IH|].
    intros b IHb. cbv beta. apply Forall_app. split; [apply Hblock|].
    eapply Forall_impl; [apply (IHb (S k))|]. cbv beta. intros l Hl Hi.
    specialize (Hl Hi). lia.
  - apply Forall_flat_map, Forall_forall. intros i _. apply Hblock.
Qed.

Lemma reference_lines_at_app (k : nat) (a b : list string) :
  reference_lines_at k (a ++ b)
  = reference_lines_at k a ++ reference_lines_at k b.
Proof. apply List.filter_app. Qed.

Lemma reference_lines_at_body (k : nat) (d : BundleDescription) :
  reference_lines_at k (body_lines k d) = [].
Proof.
  pose proof (image_lines_deeper d k) as H.
  induction H as [|l ls Hl _ IH]; [reflexivity|].
  unfold reference_lines_at in *. cbn [List.filter]. rewrite IH.
  destruct (is_image_line l) eqn:E; [|reflexivity].
  specialize (Hl eq_refl). cbn [andb].
  destruct (Nat.eqb_spec (leading_spaces l) (2 * k)) as [E'|_]; [lia|].
  reflexivity.
Qed.

Lemma reference_lines_at_node_block (k : nat) (n : Node) :
  reference_lines_at k (node_block k n)
  = [spaces (2 * k) +:+ "Image: " +:+ node_reference n].
Proof.
  unfold reference_lines_at, node_block. cbn [List.filter].
  rewrite !is_image_line_spaces.
  destruct (image_line_kind (node_reference n)) as (-> & _ & _).
  rewrite leading_spaces_indent, Nat.eqb_refl by reflexivity.
  replace (is_image_line ("Type: " +:+ node_type n)) with false
    by (destruct n; reflexivity).
  replace (is_image_line ("Origin: " +:+ node_origin n)) with false
    by (destruct (node_origin n); reflexivity).
  reflexivity.
Qed.

(** The reference lines of the children of a bundle: its bundles first,
    then its images, each list in its order. *)
Lemma reference_lines_at_children (k : nat) (d : BundleDescription) :
  reference_lines_at (S k) (body_lines k d)
  = map (fun r => spaces (2 * S k) +:+ "Image: " +:+ r)
        (map Image (Bundles (Content d))
         ++ map ImageInfo.Image (Images (Content d))).
Proof.
  destruct d as [img org [bs imgs]].
  cbn [Content Bundles Images body_lines].
  change (?l :: ?a ++ ?b) with ([l] ++ a ++ b).
  rewrite !reference_lines_at_app, map_app.
  replace (reference_lines_at (S k) [spaces (2 * k) +:+ "Images:"])
    with (@nil string)
    by (unfold reference_lines_at; cbn [List.filter];
        now rewrite is_image_line_spaces).
  cbn [app]. f_equal.
  - induction bs as [|b bs IHbs]; [reflexivity|].
    cbn [flat_map map]. rewrite !reference_lines_at_app, IHbs.
    rewrite reference_lines_at_node_block, reference_lines_at_body.
    reflexivity.
  - induction imgs as [|i imgs IHi]; [reflexivity|].
    cbn [flat_map map]. rewrite reference_lines_at_app, IHi.
    rewrite reference_lines_at_node_block. reflexivity.
Qed.

(** ** The rendered tree *)

Section Rendering.
Context `{names : regname}.

(** C5: the rendered text of a tree with N BundleNodes and M ImageNodes
    below its root has exactly N lines [Type: Bundle] and exactly M
    lines [Type: Image], and each of them comes right after an [Image:]
    line and right before an [Origin:] line. *)
Theorem type_lines_of_the_tree (d : BundleDescription) (r : Reference) :
  ParseReference (Image d) = Some r ->
  single_line (Identifier r) = true ->
  single_line_refs d = true ->
  exists ls : list string,
    printed d = Some ls
    /\ count_lines is_type_bundle_line ls = count_bundles d
    /\ count_lines is_type_image_line ls = count_images d
    /\ type_lines_framed ls.
Proof.
  intros Hr Hid Hd. eexists. split; [now apply (printed_lines d r)|].
  destruct (count_type_lines_body d 0) as [Hb Hi].
  destruct (header_line_kind (Identifier r)) as [Eb Ei].
  repeat split.
  - cbn [count_lines]. now rewrite Eb, Hb.
  - cbn [count_lines]. now rewrite Ei, Hi.
  - apply (type_lines_framed_app [_]).
    { apply type_lines_framed_plain. unfold is_type_line.
      now rewrite Eb, Ei. }
    apply (type_lines_framed_app [_]).
    { now apply type_lines_framed_plain. }
    apply type_lines_framed_body.
Qed.

(** C4: for every bundle [n] of the tree, [k] levels below the root,
    the rendered lines hold, as one run, the [Images:] label of [n],
    then the block and the body of each child bundle of [n], then the
    block of each child image of [n], each list in its own order and
    with its repetitions; the reference lines of the children read, in
    this order, the references of the bundles and then those of the
    images. *)
Theorem children_in_resolver_order (d : BundleDescription) (r : Reference)
  (n : BundleDescription) (k : nat) :
  ParseReference (Image d) = Some r ->
  single_line (Identifier r) = true ->
  single_line_refs d = true ->
  bundle_at d k n ->
  exists ls run : list string,
    printed d = Some ls
    /\ run = (spaces (2 * k) +:+ "Images:")
             :: flat_map
                  (fun b => node_block (S k) (BundleNode b)
                            ++ body_lines (S k) b)
                  (Bundles (Content n))
             ++ flat_map (fun i => node_block (S k) (ImageNode i))
                         (Images (Content n))
    /\ segment_of run ls
    /\ reference_lines_at (S k) run
       = map (fun ref => spaces (2 * S k) +:+ "Image: " +:+ ref)
             (map Image (Bundles (Content n))
              ++ map ImageInfo.Image (Images (Content n))).
Proof.
  intros Hr Hid Hd Hn. eexists. exists (body_lines k n).
  split; [now apply (printed_lines d r)|]. split; [|split].
  - destruct n as [img org [bs imgs]]. reflexivity.
  - apply (segment_of_skip _ _ [_; _]).
    apply (bundle_at_segment _ _ _ Hn 0).
  - apply reference_lines_at_children.
Qed.

(** C6: the block of a node of depth [k] is printed behind [2 * k]
    spaces: its three lines are a run of the rendered lines, each with
    exactly [2 * k] leading spaces. *)
Theorem block_indentation (d : BundleDescription) (r : Reference)
  (n : Node) (k : nat) :
  ParseReference (Image d) = Some r ->
  single_line (Identifier r) = true ->
  single_line_refs d = true ->
  node_at d k n ->
  exists ls block : list string,
    printed d = Some ls
    /\ block = [spaces (2 * k) +:+ "Image: " +:+ node_reference n;
                spaces (2 * k) +:+ "Type: " +:+ node_type n;
                spaces (2 * k) +:+ "Origin: " +:+ node_origin n]
    /\ segment_of block ls
    /\ Forall (fun l => leading_spaces l = 2 * k) block
    /\ 1 <= k.
Proof.
  intros Hr Hid Hd Hn. eexists. exists (node_block k n).
  split; [now apply (printed_lines d r)|]. repeat split.
  - apply (segment_of_skip _ _ [_; _]). now apply node_at_segment.
  - apply leading_spaces_node_block.
  - destruct Hn; lia.
Qed.
End Rendering.

(** ** The theorems at work on the examples *)

Lemma validateFlags_enumeration_example :
  validateFlags (example_options "carvel.dev/app1-bundle" "yaml") = None
  /\ exists err : error,
       validateFlags (example_options "carvel.dev/app1-bundle" "json")
       = Some err
       /\ Error err
          = "--output-type can only have the following values [text, yaml]".
Proof.
  split.
  - apply (proj1 (validateFlags_enumeration
                    (example_options "carvel.dev/app1-bundle" "yaml"))).
    right. reflexivity.
  - apply (proj2 (validateFlags_enumeration
                    (example_options "carvel.dev/app1-bundle" "json")));
      discriminate.
Defined.

Lemma Run_invalid_output_type_example :
  Run (example_options "carvel.dev/app1-bundle" "json") empty_world
  = (Returned
       (Some (Errorf
          "--output-type can only have the following values [text, yaml]")),
     empty_world)
  /\ world_calls
       (snd (Run (example_options "carvel.dev/app1-bundle" "json")
                 empty_world))
     = [].
Proof.
  apply (Run_invalid_output_type
           (example_options "carvel.dev/app1-bundle" "json") empty_world);
    discriminate.
Defined.

Lemma Run_resolution_error_example :
  Run (example_options "carvel.dev/unknown" "text") empty_world
  = (Returned (Some (errorString "bundle not found")),
     mkWorld [] [Run_call (example_options "carvel.dev/unknown" "text")]).
Proof.
  apply (Run_resolution_error
           (example_options "carvel.dev/unknown" "text") empty_world
           (errorString "bundle not found")).
  - left. reflexivity.
  - reflexivity.
Defined.

Lemma Run_yaml_prints_nothing_example :
  Run (example_options "carvel.dev/app1-bundle" "yaml") empty_world
  = (Returned None,
     mkWorld [] [Run_call (example_options "carvel.dev/app1-bundle" "yaml")]).
Proof.
  apply (Run_yaml_prints_nothing
           (example_options "carvel.dev/app1-bundle" "yaml") empty_world
           sample_root);
    reflexivity.
Defined.

Lemma Print_empty_root_example :
  exists st : UIState,
    Print (mkBundleTextPrinter ConfUI) empty_root [] = (Returned tt, st)
    /\ ui_text st
       = ("Bundle SHA: " +:+ "sha256:0000" +:+ nl) +:+ nl +:+ ("Images:" +:+ nl).
Proof.
  apply (Print_empty_root (names := example_names) empty_root "sha256:0000"); reflexivity.
Defined.

Lemma Print_reference_check_example :
  Print (mkBundleTextPrinter ConfUI) unparsable_root []
  = (Panicked
       "Internal consistency: expected not a reference to be a digest reference",
     [])
  /\ exists rest : list string,
       Print (mkBundleTextPrinter ConfUI) empty_root []
       = (Returned tt, ("Bundle SHA: " +:+ "sha256:0000" +:+ nl) :: rest).
Proof.
  split.
  - apply (proj1 (Print_reference_check (mkBundleTextPrinter ConfUI)
                    unparsable_root [])).
    reflexivity.
  - apply (proj2 (Print_reference_check (names := example_names)
                    (mkBundleTextPrinter ConfUI) empty_root [])
             "sha256:0000").
    reflexivity.
Defined.

Lemma type_lines_of_the_tree_example :
  exists ls : list string,
    printed sample_root = Some ls
    /\ count_lines is_type_bundle_line ls = 1
    /\ count_lines is_type_image_line ls = 3
    /\ type_lines_framed ls.
Proof.
  apply (type_lines_of_the_tree (names := example_names) sample_root
           "sha256:aaaaad700949154e429d28661d01c99d53a38af0d5275842ccbf0bf6dbef8ca4");
    reflexivity.
Defined.

Lemma bundle1_at_level_1 : bundle_at sample_root 1 bundle1.
Proof.
  apply (bundle_at_child sample_root 0 sample_root bundle1).
  - apply bundle_at_root.
  - left. reflexivity.
Defined.

Lemma children_in_resolver_order_example :
  exists ls run : list string,
    printed wide_root = Some ls
    /\ run = (spaces 0 +:+ "Images:")
             :: flat_map
                  (fun b => node_block 1 (BundleNode b) ++ body_lines 1 b)
                  [bundle1; bundle0]
             ++ flat_map (fun i => node_block 1 (ImageNode i))
                         [img1; img2; img1]
    /\ segment_of run ls
    /\ reference_lines_at 1 run
       = map (fun ref => spaces 2 +:+ "Image: " +:+ ref)
             (map Image [bundle1; bundle0]
              ++ map ImageInfo.Image [img1; img2; img1]).
Proof.
  apply (children_in_resolver_order (names := example_names) wide_root
           "sha256:aaaaad700949154e429d28661d01c99d53a38af0d5275842ccbf0bf6dbef8ca4"
           wide_root 0);
    [reflexivity | reflexivity | reflexivity | apply bundle_at_root].
Defined.

Lemma block_indentation_example :
  exists ls block : list string,
    printed sample_root = Some ls
    /\ block = [spaces 4 +:+ "Image: " +:+ ImageInfo.Image img1;
                spaces 4 +:+ "Type: " +:+ "Image";
                spaces 4 +:+ "Origin: " +:+ ImageInfo.Origin img1]
    /\ segment_of block ls
    /\ Forall (fun l => leading_spaces l = 4) block
    /\ 1 <= 2.
Proof.
  apply (block_indentation (names := example_names) sample_root
           "sha256:aaaaad700949154e429d28661d01c99d53a38af0d5275842ccbf0bf6dbef8ca4"
           (ImageNode img1) 2);
    [reflexivity | reflexivity | reflexivity |].
  apply (node_at_image sample_root 1 bundle1 img1).
  - exact bundle1_at_level_1.
  - left. reflexivity.
Defined.

(** The image digest that sits under two parents of the sample comes out
    twice, once in the block of each parent. *)
Lemma duplicate_digest_rendered_twice :
  exists ls : list string,
    printed sample_root = Some ls
    /\ count_lines
         (fun l => String.eqb (strip_indent l)
                              ("Image: " +:+ ImageInfo.Image img2))
         ls = 2.
Proof. eexists. split; [reflexivity|]. vm_compute. reflexivity. Qed.

(** C1, on the code: [printerRec] on the bundle of the sample, whose first
    image carries the annotation [kbld.carvel.dev/id], prints the three
    lines of each image and no [Annotations:] line: the [Origin:] line of
    the annotated image is followed by the [Image:] line of the next. *)
Theorem printerRec_omits_annotations :
  ImageInfo.Annotations img1 !! "kbld.carvel.dev/id"
  = Some "my.registry.io/simple-application"
  /\ printed_body bundle1
     = ["Images:";
        "  Image: new.registry.io/simple-app-install-package@sha256:4c8b96d4fffdfae29258d94a22ae4ad1fe36139d47288b8960d9958d1e63a9d0";
        "  Type: Image";
        "  Origin: registry.io/img1@sha256:4c8b96d4fffdfae29258d94a22ae4ad1fe36139d47288b8960d9958d1e63a9d0";
        "  Image: new.registry.io/simple-app-install-package@sha256:47ae428a887c41ba0aedf87d560eb305a8aa522ffb80ac1c96a37b16df038e0f";
        "  Type: Image";
        "  Origin: registry.io/img2@sha256:47ae428a887c41ba0aedf87d560eb305a8aa522ffb80ac1c96a37b16df038e0f"]
  /\ count_lines is_annotations_line (printed_body bundle1) = 0.
Proof.
  split; [apply lookup_singleton_eq|].
  split; vm_compute; reflexivity.
Qed.

(** C6, as stated, fails on the trees that the documented samples draw.
    On the tree of the format of section 6 of the spec, the block of the
    image of depth 2 is printed behind 4 spaces, where the sample has 6;
    on the tree of the sample in the comment above [bundleTextPrinter],
    the [Type:] line of the bundle of depth 1 is printed behind 2 spaces,
    where the sample has 4. *)
Lemma sample_indentation_mismatch :
  ~ indented_as_sample (printed_body spec_sample_tree) spec_sample_body
  /\ ~ indented_as_sample (printed_body sample_root) comment_sample_body.
Proof.
  split; intros H.
  - specialize (H 5 "    Image: <ref>" "      Image: <ref>").
    assert (4 = 6) as E by (apply H; vm_compute; reflexivity).
    discriminate E.
  - specialize (H 2 "  Type: Bundle" "    Type: Bundle").
    assert (2 = 4) as E by (apply H; vm_compute; reflexivity).
    discriminate E.
Qed.

(** * Further properties of the command *)

(** ** [Run], case by case *)

Section Run_properties.
Context `{names : regname} `{api : imgpkg_api}.

Lemma validateFlags_None (d : DescribeOptions) :
  validateFlags d = None -> OutputType d = "text" \/ OutputType d = "yaml".
Proof.
  intros Hvalid.
  destruct (String.eqb_spec (OutputType d) "text") as [E|Htext]; [now left|].
  destruct (String.eqb_spec (OutputType d) "yaml") as [E|Hyaml]; [now right|].
  unfold validateFlags in Hvalid.
  rewrite (validateFlags_loop_miss _ Htext Hyaml) in Hvalid. discriminate.
Qed.

Lemma Run_invalid (d : DescribeOptions) (w : World) (err : error) :
  validateFlags d = Some err -> Run d w = (Returned (Some err), w).
Proof. intros E. unfold Run. now rewrite E. Qed.

Lemma Run_resolver_failed (d : DescribeOptions) (w : World) (err : error) :
  validateFlags d = None -> resolved d = inr err ->
  Run d w = (Returned (Some err), resolver_invoked d w).
Proof.
  intros Hvalid Herr. unfold Run. rewrite Hvalid. cbv zeta.
  erewrite bind_Returned by reflexivity.
  unfold resolved, Run_call in Herr.
  cbn [call_bundle call_opts call_registry] in Herr.
  now rewrite Herr.
Qed.

Lemma Run_yaml (d : DescribeOptions) (w : World) (desc : BundleDescription) :
  OutputType d = "yaml" -> resolved d = inl desc ->
  Run d w = (Returned None, resolver_invoked d w).
Proof.
  intros Hyaml Hok. unfold Run.
  rewrite (validateFlags_valid d (or_intror Hyaml)). cbv zeta.
  erewrite bind_Returned by reflexivity.
  unfold resolved, Run_call in Hok.
  cbn [call_bundle call_opts call_registry] in Hok.
  rewrite Hok, Hyaml. reflexivity.
Qed.

Lemma Run_text (d : DescribeOptions) (w : World) (desc : BundleDescription) :
  OutputType d = "text" -> resolved d = inl desc ->
  Run d w
  = match Print (mkBundleTextPrinter (ui d)) desc (world_ui w) with
    | (Returned _, st) =>
        (Returned None, mkWorld st (world_calls w ++ [Run_call d]))
    | (Panicked msg, st) =>
        (Panicked msg, mkWorld st (world_calls w ++ [Run_call d]))
    end.
Proof.
  intros Htext Hok. unfold Run.
  rewrite (validateFlags_valid d (or_introl Htext)). cbv zeta.
  erewrite bind_Returned by reflexivity.
  unfold resolved, Run_call in Hok.
  cbn [call_bundle call_opts call_registry] in Hok.
  rewrite Hok, Htext.
  replace (String.eqb "text" "text") with true by reflexivity.
  unfold bind, on_ui. cbn [world_ui world_calls].
  destruct (Print _ desc (world_ui w)) as [[[]|msg] st]; reflexivity.
Qed.

Lemma Run_text_panic (d : DescribeOptions) (w : World)
  (desc : BundleDescription) :
  OutputType d = "text" -> resolved d = inl desc ->
  ParseReference (Image desc) = None ->
  Run d w
  = (Panicked ("Internal consistency: expected " +:+ Image desc
               +:+ " to be a digest reference"),
     resolver_invoked d w).
Proof.
  intros Htext Hok Hnone. rewrite (Run_text d w desc Htext Hok).
  unfold Print. now rewrite Hnone.
Qed.

(** The five ways [Run] can go. *)
Lemma Run_cases (d : DescribeOptions) (w : World) :
  (exists err, validateFlags d = Some err
               /\ Run d w = (Returned (Some err), w))
  \/ (exists err, validateFlags d = None /\ resolved d = inr err
                  /\ Run d w = (Returned (Some err), resolver_invoked d w))
  \/ (exists desc, OutputType d = "yaml" /\ resolved d = inl desc
                   /\ Run d w = (Returned None, resolver_invoked d w))
  \/ (exists desc msg, OutputType d = "text" /\ resolved d = inl desc
                       /\ ParseReference (Image desc) = None
                       /\ Run d w = (Panicked msg, resolver_invoked d w))
  \/ (exists desc r out, OutputType d = "text" /\ resolved d = inl desc
                         /\ ParseReference (Image desc) = Some r
                         /\ Run d w
                            = (Returned None,
                               mkWorld (world_ui w ++ out)
                                       (world_calls w ++ [Run_call d]))).
Proof.
  destruct (validateFlags d) as [err|] eqn:Hvalid.
  { left. exists err. split; [reflexivity|]. now apply Run_invalid. }
  right. destruct (resolved d) as [desc|err] eqn:Hres.
  2:{ left. exists err. split; [reflexivity|]. split; [reflexivity|].
      now apply Run_resolver_failed. }
  right. destruct (validateFlags_None d Hvalid) as [Htext|Hyaml].
  2:{ left. exists desc. split; [assumption|]. split; [reflexivity|].
      now apply (Run_yaml d w desc). }
  right. destruct (ParseReference (Image desc)) as [r|] eqn:Hr.
  - right. exists desc, r. eexists.
    split; [assumption|]. split; [reflexivity|]. split; [assumption|].
    rewrite (Run_text d w desc Htext Hres).
    now rewrite (Print_writes _ _ r _ Hr).
  - left. exists desc. eexists.
    split; [assumption|]. split; [reflexivity|]. split; [assumption|].
    exact (Run_text_panic d w desc Htext Hres Hr).
Qed.

(** X1: in text mode, when the resolver succeeds and the reference of the
    root parses, [Run] returns [nil]; the resolver was invoked once, and
    the terminal has received, after what it showed, the header, the
    separator and the body of the resolved tree, each text with its line
    feed. *)
Theorem Run_text_renders (d : DescribeOptions) (w : World)
  (desc : BundleDescription) (r : Reference) :
  OutputType d = "text" -> resolved d = inl desc ->
  ParseReference (Image desc) = Some r ->
  Run d w
  = (Returned None,
     mkWorld
       (world_ui w
        ++ map with_nl
             ((spaces (2 * ui_level (ui d)) +:+ "Bundle SHA: "
               +:+ Identifier r)
              :: spaces (2 * ui_level (ui d))
              :: body_lines (ui_level (ui d)) desc))
       (world_calls w ++ [Run_call d])).
Proof.
  intros Htext Hok Hr. rewrite (Run_text d w desc Htext Hok).
  now rewrite (Print_writes _ _ r _ Hr).
Qed.

(** X2: [Run] invokes the resolver once when the flags are valid, also
    when it goes on to panic, and never otherwise; and what the terminal
    showed before stays in front of what [Run] writes. *)
Theorem Run_invokes_resolver_once (d : DescribeOptions) (w : World) :
  world_calls (snd (Run d w))
  = world_calls w
    ++ match validateFlags d with
       | None => [Run_call d]
       | Some _ => []
       end
  /\ exists out : list string,
       world_ui (snd (Run d w)) = world_ui w ++ out.
Proof.
  destruct (Run_cases d w)
    as [(err & Hv & ->)
       |[(err & Hv & _ & ->)
        |[(desc & Hy & _ & ->)
         |[(desc & msg & Ht & _ & _ & ->)
          |(desc & r & out & Ht & _ & _ & ->)]]]];
    try rewrite Hv;
    try rewrite (validateFlags_valid d (or_intror Hy));
    try rewrite (validateFlags_valid d (or_introl Ht));
    cbn [snd world_calls world_ui resolver_invoked];
    (split; [now rewrite ?app_nil_r|]).
  1-4: exists []; now rewrite app_nil_r.
  now exists out.
Qed.

(** X3: [Run] panics exactly when the output type is ["text"], the
    resolver succeeds and the reference of the resolved root does not
    parse. *)
Theorem Run_panics_iff (d : DescribeOptions) (w : World) :
  (exists msg w', Run d w = (Panicked msg, w'))
  <-> (OutputType d = "text"
       /\ exists desc, resolved d = inl desc
                       /\ ParseReference (Image desc) = None).
Proof.
  split.
  - intros (msg0 & w0 & H).
    destruct (Run_cases d w)
      as [(err & _ & E)
         |[(err & _ & _ & E)
          |[(desc & _ & _ & E)
           |[(desc & msg & Ht & Hres & Hr & E)
            |(desc & r & out & _ & _ & _ & E)]]]];
      rewrite E in H; try discriminate H.
    split; [assumption|now exists desc].
  - intros (Htext & desc & Hres & Hr). do 2 eexists.
    exact (Run_text_panic d w desc Htext Hres Hr).
Qed.

(** X4: [Run] returns the error [err] exactly when [validateFlags]
    returns it, or the flags are valid and the resolver answers with it:
    no other error comes out of [Run]. *)
Theorem Run_error_iff (d : DescribeOptions) (w : World) (err : error) :
  (exists w', Run d w = (Returned (Some err), w'))
  <-> (validateFlags d = Some err
       \/ (validateFlags d = None /\ resolved d = inr err)).
Proof.
  split.
  - intros (w0 & H).
    destruct (Run_cases d w)
      as [(err' & Hv & E)
         |[(err' & Hv & Hres & E)
          |[(desc & _ & _ & E)
           |[(desc & msg & _ & _ & _ & E)
            |(desc & r & out & _ & _ & _ & E)]]]];
      rewrite E in H; try discriminate H; injection H as <- _.
    + now left.
    + now right.
  - intros [Hv|[Hv Hres]]; eexists.
    + now apply Run_invalid.
    + now apply Run_resolver_failed.
Qed.

(** X5: unless [Run] returns [nil], it has written nothing: after an
    error or a panic the terminal is as it was. *)
Theorem Run_no_partial_output (d : DescribeOptions) (w : World) :
  fst (Run d w) <> Returned None ->
  world_ui (snd (Run d w)) = world_ui w.
Proof.
  intros Hfail.
  destruct (Run_cases d w)
    as [(err & _ & E)
       |[(err & _ & _ & E)
        |[(desc & _ & _ & E)
         |[(desc & msg & _ & _ & _ & E)
          |(desc & r & out & _ & _ & _ & E)]]]];
    rewrite E in *; cbn [fst snd] in *; try reflexivity; now destruct Hfail.
Qed.
End Run_properties.

(** ** The printer and the indenting UI *)

Lemma spaces_next_level (k : nat) :
  spaces (2 * S k) = indent_unit +:+ spaces (2 * k).
Proof. replace (2 * S k) with (2 + 2 * k) by lia. reflexivity. Qed.

Lemma node_block_next_level (k : nat) (n : Node) :
  node_block (S k) n = map (String.append indent_unit) (node_block k n).
Proof.
  unfold node_block. cbn [map].
  now rewrite spaces_next_level, !append_assoc.
Qed.

Lemma body_lines_next_level (d : BundleDescription) :
  forall k : nat,
    body_lines (S k) d = map (String.append indent_unit) (body_lines k d).
Proof.
  induction d as [d IH] using BundleDescription_tree_ind.
  destruct d as [img org [bs imgs]].
  cbn [Content Bundles Images body_lines] in *. intros k.
  cbn [map]. rewrite map_app, !map_flat_map.
  rewrite (spaces_next_level k), append_assoc. f_equal. f_equal.
  - induction IH as [|b bs IHb _ IHbs]; [reflexivity|].
    cbn [flat_map]. rewrite IHbs, map_app.
    now rewrite node_block_next_level, (IHb (S k)).
  - clear IH. induction imgs as [|i imgs IHi]; [reflexivity|].
    cbn [flat_map]. now rewrite IHi, node_block_next_level.
Qed.

(** X6: printing a tree through an indenting UI writes the texts that
    printing it through the parent UI writes, each behind two more
    spaces. *)
Theorem printerRec_through_indenting_UI (d : BundleDescription)
  (logger : UI) (st : UIState) :
  printerRec d (NewIndentingUI logger) st
  = (Returned tt,
     st ++ map (String.append indent_unit) (snd (printerRec d logger []))).
Proof.
  rewrite !printerRec_writes. unfold NewIndentingUI.
  cbn [ui_level snd app]. rewrite body_lines_next_level.
  rewrite !List.map_map.
  rewrite (List.map_ext
             (fun l => with_nl (indent_unit +:+ l))
             (fun l => indent_unit +:+ with_nl l)); [reflexivity|].
  intros l. unfold with_nl. now rewrite append_assoc.
Qed.

(** ** What the printer reads of a tree *)

Lemma body_lines_root_fields (k : nat) (img org : string)
  (d : BundleDescription) :
  body_lines k (mkBundleDescription img org (Content d)) = body_lines k d.
Proof. destruct d as [img' org' [bs imgs]]. reflexivity. Qed.

Lemma body_lines_rendered_content (d : BundleDescription) :
  forall k : nat,
    body_lines k (mkBundleDescription "" "" (rendered_content d))
    = body_lines k d.
Proof.
  induction d as [d IH] using BundleDescription_tree_ind.
  destruct d as [img org [bs imgs]].
  cbn [Content Bundles Images body_lines rendered_content] in *. intros k.
  f_equal. f_equal.
  - induction IH as [|b bs IHb _ IHbs]; [reflexivity|].
    cbn [map flat_map]. rewrite IHbs. f_equal. f_equal.
    rewrite <- (IHb (S k)). reflexivity.
  - clear IH. induction imgs as [|i imgs IHi]; [reflexivity|].
    cbn [map flat_map]. now rewrite IHi.
Qed.

(** X7: the texts [printerRec] writes depend on the tree through the
    references and origins of the nodes below the root only: two trees
    that differ in the reference or origin of the root, or in the
    annotations of images, are printed alike. *)
Theorem printerRec_reads_references_only (d1 d2 : BundleDescription)
  (logger : UI) (st : UIState) :
  rendered_content d1 = rendered_content d2 ->
  printerRec d1 logger st = printerRec d2 logger st.
Proof.
  intros Hsame. rewrite !printerRec_writes.
  rewrite <- (body_lines_rendered_content d1).
  rewrite <- (body_lines_rendered_content d2).
  now rewrite Hsame.
Qed.

(** ** The rendering determines the tree *)

Lemma append_inj_l (s x y : string) : s +:+ x = s +:+ y -> x = y.
Proof.
  induction s as [|c s IH]; [easy|].
  rewrite !append_String. intros H. injection H as H. now apply IH.
Qed.

Lemma body_lines_children (k : nat) (d : BundleDescription) :
  body_lines k d
  = (spaces (2 * k) +:+ "Images:")
    :: children_lines (S k) (Bundles (Content d)) (Images (Content d)).
Proof. destruct d as [img org [bs imgs]]. reflexivity. Qed.

Lemma rendered_content_children (d : BundleDescription) :
  rendered_content d
  = mkContent (map rendered_bundle (Bundles (Content d)))
              (map plain_image (Images (Content d))).
Proof. destruct d as [img org [bs imgs]]. reflexivity. Qed.

(** A block does not start what ends its level. *)
Lemma node_block_not_end (k : nat) (n : Node) (rest c : list string) :
  ends_level k c -> node_block k n ++ rest = c -> False.
Proof.
  intros Hc E. destruct c as [|l c]; [discriminate E|].
  unfold node_block in E. cbn [app] in E. injection E as <- _.
  cbn [ends_level] in Hc.
  rewrite leading_spaces_indent in Hc by reflexivity. lia.
Qed.

(** The block of a bundle is not the block of an image. *)
Lemma node_block_kinds (k : nat) (b : BundleDescription) (i : ImageInfo.t)
  (r1 r2 : list string) :
  node_block k (BundleNode b) ++ r1 = node_block k (ImageNode i) ++ r2 ->
  False.
Proof.
  unfold node_block. cbn [app node_type]. intros E.
  injection E as _ E _. apply append_inj_l in E. discriminate E.
Qed.

(** Equal blocks are blocks of nodes with the same reference and origin. *)
Lemma node_block_inj (k : nat) (n1 n2 : Node) (r1 r2 : list string) :
  node_block k n1 ++ r1 = node_block k n2 ++ r2 ->
  node_reference n1 = node_reference n2
  /\ node_origin n1 = node_origin n2
  /\ r1 = r2.
Proof.
  unfold node_block. cbn [app]. intros E. injection E as E1 _ E3 E4.
  apply append_inj_l, (append_inj_l "Image: ") in E1.
  apply append_inj_l, (append_inj_l "Origin: ") in E3.
  auto.
Qed.

Lemma ends_level_children (k : nat) (bs : list BundleDescription)
  (imgs : list ImageInfo.t) (c : list string) :
  ends_level k c -> ends_level (S k) (children_lines k bs imgs ++ c).
Proof.
  intros Hc. unfold children_lines.
  destruct bs as [|b bs]; [destruct imgs as [|i imgs]|];
    cbn [flat_map app node_block ends_level].
  - destruct c as [|l c]; cbn [ends_level] in *; lia.
  - rewrite leading_spaces_indent by reflexivity. lia.
  - rewrite leading_spaces_indent by reflexivity. lia.
Qed.

(** The images of a bundle can be read back from their lines. *)
Lemma image_lines_inj (k : nat) (imgs1 : list ImageInfo.t) :
  forall (bs2 : list BundleDescription) (imgs2 : list ImageInfo.t)
         (c1 c2 : list string),
    ends_level k c1 -> ends_level k c2 ->
    children_lines k [] imgs1 ++ c1 = children_lines k bs2 imgs2 ++ c2 ->
    bs2 = []
    /\ map plain_image imgs1 = map plain_image imgs2
    /\ c1 = c2.
Proof.
  unfold children_lines. cbn [flat_map app].
  induction imgs1 as [|i1 imgs1 IH]; intros bs2 imgs2 c1 c2 H1 H2 E.
  - destruct bs2 as [|b2 bs2]; [destruct imgs2 as [|i2 imgs2]|];
      cbn [flat_map app] in E.
    + auto.
    + exfalso. symmetry in E. rewrite <- app_assoc in E.
      exact (node_block_not_end _ _ _ _ H1 E).
    + exfalso. symmetry in E. rewrite <- !app_assoc in E.
      exact (node_block_not_end _ _ _ _ H1 E).
  - cbn [flat_map] in E. rewrite <- app_assoc in E.
    destruct bs2 as [|b2 bs2]; [destruct imgs2 as [|i2 imgs2]|];
      cbn [flat_map app] in E.
    + exfalso. exact (node_block_not_end _ _ _ _ H2 E).
    + rewrite <- app_assoc in E.
      apply node_block_inj in E as (Eref & Eorg & E).
      cbn [node_reference node_origin] in Eref, Eorg.
      destruct (IH [] imgs2 c1 c2 H1 H2 E) as (_ & Eimgs & Ec).
      repeat split; [|assumption]. cbn [map]. unfold plain_image at 1 3.
      now rewrite Eref, Eorg, Eimgs.
    + exfalso. rewrite <- !app_assoc in E. symmetry in E.
      exact (node_block_kinds _ _ _ _ _ E).
Qed.

(** The body of a bundle, followed by what ends its children's level,
    can be read back. *)
Lemma body_lines_inj (d1 : BundleDescription) :
  forall (k : nat) (d2 : BundleDescription) (c1 c2 : list string),
    ends_level (S k) c1 -> ends_level (S k) c2 ->
    body_lines k d1 ++ c1 = body_lines k d2 ++ c2 ->
    rendered_content d1 = rendered_content d2 /\ c1 = c2.
Proof.
  induction d1 as [d1 IH] using BundleDescription_tree_ind.
  intros k d2 c1 c2 H1 H2 E.
  rewrite !body_lines_children in E. cbn [app] in E. injection E as E.
  rewrite !rendered_content_children.
  revert E. generalize (Images (Content d1)) (Images (Content d2)).
  generalize (Bundles (Content d2)).
  induction IH as [|b1 bs1 IHb1 _ IHbs1]; intros bs2 imgs1 imgs2 E.
  - apply image_lines_inj in E as (-> & -> & ->); auto.
  - destruct bs2 as [|b2 bs2].
    + exfalso. unfold children_lines in E. cbn [flat_map app] in E.
      rewrite <- !app_assoc in E.
      destruct imgs2 as [|i2 imgs2]; cbn [flat_map app] in E.
      * exact (node_block_not_end _ _ _ _ H2 E).
      * rewrite <- app_assoc in E.
        exact (node_block_kinds _ _ _ _ _ E).
    + unfold children_lines in E. cbn [flat_map] in E.
      rewrite <- !app_assoc in E.
      apply node_block_inj in E as (Eref & Eorg & E).
      cbn [node_reference node_origin] in Eref, Eorg.
      rewrite !app_assoc in E. rewrite <- !(app_assoc (body_lines _ _)) in E.
      fold (children_lines (S k) bs1 imgs1) in E.
      fold (children_lines (S k) bs2 imgs2) in E.
      apply IHb1 in E as (Eb & E);
        [|now apply ends_level_children..].
      apply IHbs1 in E as (Ebs & Ec).
      injection Ebs as Ebs Eimgs. split; [|assumption].
      cbn [map]. unfold rendered_bundle at 1 3.
      now rewrite Eref, Eorg, Eb, Ebs, Eimgs.
Qed.

(** X8: the printed body determines the tree up to what the printer does
    not read: two trees whose printed references hold no line feed and
    whose bodies are printed as the same lines have, below their roots,
    the same bundles and images, with the same references and origins, in
    the same order. *)
Theorem rendering_determines_content (d1 d2 : BundleDescription) :
  single_line_refs d1 = true ->
  single_line_refs d2 = true ->
  printed_body d1 = printed_body d2 ->
  rendered_content d1 = rendered_content d2.
Proof.
  intros H1 H2 E. rewrite !printed_body_lines in E by assumption.
  apply (body_lines_inj d1 0 d2 [] []); [exact I | exact I |].
  now rewrite !app_nil_r.
Qed.

(** ** The lines of a rendered tree *)

Lemma is_images_label_line_spaces (k : nat) (x : string) :
  is_images_label_line (spaces k +:+ x) = is_images_label_line x.
Proof. unfold is_images_label_line. now rewrite strip_indent_spaces. Qed.

Lemma count_labels_node_block (k : nat) (n : Node) :
  count_lines is_images_label_line (node_block k n) = 0.
Proof.
  unfold node_block. cbn [count_lines].
  rewrite !is_images_label_line_spaces.
  replace (is_images_label_line ("Image: " +:+ node_reference n)) with false
    by (destruct (node_reference n); reflexivity).
  replace (is_images_label_line ("Origin: " +:+ node_origin n)) with false
    by (destruct (node_origin n); reflexivity).
  destruct n; reflexivity.
Qed.

Lemma count_labels_body (d : BundleDescription) :
  forall k : nat,
    count_lines is_images_label_line (body_lines k d) = 1 + count_bundles d
    /\ length (body_lines k d)
       = 1 + 4 * count_bundles d + 3 * count_images d.
Proof.
  induction d as [d IH] using BundleDescription_tree_ind.
  destruct d as [img org [bs imgs]].
  cbn [Content Bundles Images body_lines count_bundles count_images] in *.
  intros k. cbn [count_lines length].
  rewrite is_images_label_line_spaces.
  replace (is_images_label_line "Images:") with true by reflexivity.
  rewrite count_lines_app, length_app.
  assert (count_lines is_images_label_line
            (flat_map (fun i => node_block (S k) (ImageNode i)) imgs) = 0
          /\ length (flat_map (fun i => node_block (S k) (ImageNode i)) imgs)
             = 3 * length imgs) as [-> ->].
  { clear IH. induction imgs as [|i imgs [IH1 IH2]]; [split; reflexivity|].
    cbn [flat_map]. rewrite count_lines_app, length_app.
    rewrite count_labels_node_block, IH1, IH2. cbn [length node_block].
    split; lia. }
  induction IH as [|b bs IHb _ IHbs].
  - cbn [flat_map fold_right count_lines length]. split; lia.
  - destruct IHbs as [IHbs1 IHbs2]. destruct (IHb (S k)) as [IHb1 IHb2].
    cbn [flat_map fold_right]. rewrite !count_lines_app, !length_app.
    rewrite count_labels_node_block, IHb1, IHb2.
    cbn [length node_block]. split; lia.
Qed.

Lemma is_body_line_node_block (k : nat) (n : Node) :
  forallb is_body_line (node_block k n) = true.
Proof.
  unfold node_block, is_body_line. cbn [forallb].
  rewrite !is_image_line_spaces, !is_type_line_spaces,
    !is_origin_line_spaces.
  rewrite !leading_spaces_indent by reflexivity.
  rewrite Nat.even_mul. cbn [Nat.even orb].
  destruct (image_line_kind (node_reference n)) as (-> & _ & _).
  destruct (origin_line_kind (node_origin n)) as (-> & _ & _).
  replace (is_type_line ("Type: " +:+ node_type n)) with true
    by (destruct n; reflexivity).
  now rewrite !orb_true_r.
Qed.

Lemma is_body_line_body (d : BundleDescription) :
  forall k : nat, forallb is_body_line (body_lines k d) = true.
Proof.
  induction d as [d IH] using BundleDescription_tree_ind.
  destruct d as [img org [bs imgs]].
  cbn [Content Bundles Images body_lines] in *. intros k.
  cbn [forallb]. rewrite forallb_app.
  assert (is_body_line (spaces (2 * k) +:+ "Images:") = true) as ->.
  { unfold is_body_line. rewrite is_images_label_line_spaces.
    rewrite leading_spaces_indent by reflexivity.
    now rewrite Nat.even_mul. }
  assert (forallb is_body_line
            (flat_map (fun i => node_block (S k) (ImageNode i)) imgs) = true)
    as ->.
  { clear IH. induction imgs as [|i imgs IHi]; [reflexivity|].
    cbn [flat_map]. now rewrite forallb_app, is_body_line_node_block. }
  induction IH as [|b bs IHb _ IHbs]; [reflexivity|].
  cbn [flat_map]. rewrite !forallb_app, is_body_line_node_block, (IHb (S k)).
  cbn [andb] in *. now rewrite andb_true_r in *.
Qed.

Section Rendered_lines.
Context `{names : regname}.

(** X9: in the rendered text of a tree with N bundles and M images
    below its root, every bundle, the root included and an empty one too,
    has its [Images:] label, which makes 1 + N labels; the text has
    3 + 4 N + 3 M lines. *)
Theorem labels_and_lines_of_the_tree (d : BundleDescription)
  (r : Reference) :
  ParseReference (Image d) = Some r ->
  single_line (Identifier r) = true ->
  single_line_refs d = true ->
  exists ls : list string,
    printed d = Some ls
    /\ count_lines is_images_label_line ls = 1 + count_bundles d
    /\ length ls = 3 + 4 * count_bundles d + 3 * count_images d.
Proof.
  intros Hr Hid Hd. eexists. split; [now apply (printed_lines d r)|].
  destruct (count_labels_body d 0) as [Hlabels Hlen].
  cbn [count_lines length]. rewrite Hlabels, Hlen.
  replace (is_images_label_line ("Bundle SHA: " +:+ Identifier r))
    with false by (destruct (Identifier r); reflexivity).
  replace (is_images_label_line "") with false by reflexivity.
  split; lia.
Qed.

(** X10: the rendered text is the header line, an empty line, and then
    nothing but [Images:] labels and [Image:], [Type: Bundle],
    [Type: Image] and [Origin:] lines, each behind an even number of
    spaces. *)
Theorem rendered_lines_kinds (d : BundleDescription) (r : Reference) :
  ParseReference (Image d) = Some r ->
  single_line (Identifier r) = true ->
  single_line_refs d = true ->
  exists body : list string,
    printed d = Some (("Bundle SHA: " +:+ Identifier r) :: "" :: body)
    /\ forallb is_body_line body = true.
Proof.
  intros Hr Hid Hd. exists (body_lines 0 d).
  split; [now apply (printed_lines d r)|apply is_body_line_body].
Qed.
End Rendered_lines.

(** ** The further properties at work on the examples *)

Lemma Run_text_renders_example :
  Run (example_options "carvel.dev/app1-bundle" "text") busy_world
  = (Returned None,
     mkWorld
       (world_ui busy_world
        ++ map with_nl
             (("Bundle SHA: "
               +:+ "sha256:aaaaad700949154e429d28661d01c99d53a38af0d5275842ccbf0bf6dbef8ca4")
              :: "" :: body_lines 0 sample_root))
       [Run_call (example_options "carvel.dev/app1-bundle" "text")]).
Proof.
  apply (Run_text_renders (names := example_names)
           (example_options "carvel.dev/app1-bundle" "text") busy_world
           sample_root
           "sha256:aaaaad700949154e429d28661d01c99d53a38af0d5275842ccbf0bf6dbef8ca4");
    reflexivity.
Defined.

Lemma Run_panics_iff_example :
  exists msg w',
    Run (example_options "carvel.dev/broken" "text") busy_world
    = (Panicked msg, w').
Proof.
  apply (proj2 (Run_panics_iff (names := example_names)
                  (example_options "carvel.dev/broken" "text") busy_world)).
  split; [reflexivity|].
  exists unparsable_root. split; reflexivity.
Defined.

Lemma Run_error_iff_example :
  exists w',
    Run (example_options "carvel.dev/unknown" "yaml") busy_world
    = (Returned (Some (errorString "bundle not found")), w').
Proof.
  apply (proj2 (Run_error_iff (names := example_names)
                  (example_options "carvel.dev/unknown" "yaml") busy_world
                  (errorString "bundle not found"))).
  right. split; reflexivity.
Defined.

Lemma Run_no_partial_output_example :
  world_ui (snd (Run (example_options "carvel.dev/broken" "text") busy_world))
  = world_ui busy_world.
Proof.
  apply (Run_no_partial_output (names := example_names)
           (example_options "carvel.dev/broken" "text") busy_world).
  intros H. vm_compute in H. discriminate H.
Defined.

Lemma printerRec_reads_references_only_example :
  printerRec sample_root ConfUI [] = printerRec sample_root_plain ConfUI [].
Proof.
  apply (printerRec_reads_references_only sample_root sample_root_plain).
  reflexivity.
Defined.

Lemma rendering_determines_content_example :
  rendered_content sample_root = rendered_content sample_root_plain.
Proof.
  apply (rendering_determines_content sample_root sample_root_plain);
    vm_compute; reflexivity.
Defined.

Lemma labels_and_lines_of_the_tree_example :
  exists ls : list string,
    printed sample_root = Some ls
    /\ count_lines is_images_label_line ls = 2
    /\ length ls = 16.
Proof.
  apply (labels_and_lines_of_the_tree (names := example_names) sample_root
           "sha256:aaaaad700949154e429d28661d01c99d53a38af0d5275842ccbf0bf6dbef8ca4");
    reflexivity.
Defined.

Lemma rendered_lines_kinds_example :
  exists body : list string,
    printed sample_root
    = Some (("Bundle SHA: "
             +:+ "sha256:aaaaad700949154e429d28661d01c99d53a38af0d5275842ccbf0bf6dbef8ca4")
            :: "" :: body)
    /\ forallb is_body_line body = true.
Proof.
  apply (rendered_lines_kinds (names := example_names) sample_root
           "sha256:aaaaad700949154e429d28661d01c99d53a38af0d5275842ccbf0bf6dbef8ca4");
    reflexivity.
Defined.

(** ** The loop of [validateFlags] *)

(** X11: whatever values the loop of [validateFlags] ranges over, its
    outcome is the flag itself when the flag is one of them, and the empty
    string otherwise; an empty flag therefore never passes the test that
    follows the loop, even were the empty string among the values. *)
Theorem validateFlags_loop_finds_the_flag (values : list string)
  (flag : string) :
  (In flag values -> validateFlags_loop values flag "" = flag)
  /\ (~ In flag values -> validateFlags_loop values flag "" = "")
  /\ (flag = "" -> validateFlags_loop values flag "" = "").
Proof.
  assert (In flag values -> validateFlags_loop values flag "" = flag) as Hin.
  { induction values as [|s values IH]; intros H; [destruct H|].
    cbn [validateFlags_loop].
    destruct (String.eqb_spec s flag) as [E|Hne]; [exact E|].
    destruct H as [E|H]; [contradiction|now apply IH]. }
  assert (~ In flag values -> validateFlags_loop values flag "" = "") as Hout.
  { clear Hin. induction values as [|s values IH]; intros H; [reflexivity|].
    cbn [validateFlags_loop].
    destruct (String.eqb_spec s flag) as [E|Hne].
    - exfalso. apply H. now left.
    - apply IH. intros H'. apply H. now right. }
  repeat split; [exact Hin|exact Hout|].
  intros ->. destruct (in_dec String.string_dec "" values) as [H|H].
  - now apply Hin.
  - now apply Hout.
Qed.

Lemma validateFlags_loop_finds_the_flag_example :
  validateFlags_loop ["text"; "yaml"] "yaml" "" = "yaml"
  /\ validateFlags_loop ["text"; "yaml"] "Text" "" = ""
  /\ validateFlags_loop ["text"; ""; "yaml"] "" "" = "".
Proof.
  split; [|split].
  - apply (proj1 (validateFlags_loop_finds_the_flag ["text"; "yaml"] "yaml")).
    right. left. reflexivity.
  - apply (proj1 (proj2 (validateFlags_loop_finds_the_flag
                           ["text"; "yaml"] "Text"))).
    intros [H|[H|[]]]; discriminate H.
  - apply (proj2 (proj2 (validateFlags_loop_finds_the_flag
                           ["text"; ""; "yaml"] ""))).
    reflexivity.
Defined.

(** ** The guard of [Print] and tag references *)

(** C8, on the code: the guard of [Print] is [regname.ParseReference],
    which takes a tag reference as well as a digest reference. On a root
    whose reference is the tag reference [registry.io/app:v1], [Print]
    does not panic: it returns, and the header reads [Bundle SHA: v1].
    On a root with a digest reference the header carries the digest, and
    on a string that is no reference at all [Print] panics. *)
Theorem Print_accepts_tag_reference :
  @ParseReference registry_names (Image tagged_root)
  = Some (TagReference "registry.io/app" "v1")
  /\ @Print registry_names (mkBundleTextPrinter ConfUI) tagged_root []
     = (Returned tt, ["Bundle SHA: v1" +:+ nl; nl; "Images:" +:+ nl])
  /\ @ParseReference registry_names (Image sample_root)
     = Some (DigestReference
               "new.registry.io/simple-app-install-package"
               "sha256:aaaaad700949154e429d28661d01c99d53a38af0d5275842ccbf0bf6dbef8ca4")
  /\ (exists rest : list string,
        @Print registry_names (mkBundleTextPrinter ConfUI) sample_root []
        = (Returned tt,
           ("Bundle SHA: sha256:aaaaad700949154e429d28661d01c99d53a38af0d5275842ccbf0bf6dbef8ca4"
            +:+ nl) :: rest))
  /\ @Print registry_names (mkBundleTextPrinter ConfUI) unparsable_root []
     = (Panicked
          "Internal consistency: expected not a reference to be a digest reference",
        []).
Proof.
  split; [vm_compute; reflexivity|].
  split; [vm_compute; reflexivity|].
  split; [vm_compute; reflexivity|].
  split; [eexists; vm_compute; reflexivity|].
  vm_compute; reflexivity.
Qed.
